(** * DramaChinavip_bot: the VIP video bot of [bot_db.py]

    A shallow embedding of the command handlers of [bot_db.py] and of the
    helpers they call, with the properties of the entitlement life cycle,
    of the admin gate and of the remaining-time formatter.

    Conventions of the embedding.
    - Python [str] values are Rocq strings (byte strings); the literals of
      the replies are kept as they are in the source.
    - Timestamps are Python floats in the source ([time.time()], the
      [expiry_time] column).  They are exact rationals here: comparison,
      [max], floor division and remainder are those of the rationals, and
      rounding of the floats is outside the model.
    - A handler runs at one instant: every [time.time()] it reads, directly
      or through [VipUser.is_active], is the field [time_time] of the
      environment.
    - The two tables and the messages sent so far are the state threaded
      through a small state-and-exception monad. *)

From Stdlib Require Import Ascii String QArith Qround Lqa.
From stdpp Require Import gmap strings list pretty.

Local Open Scope string_scope.

(** ** Python built-ins on strings *)

Module Py.

(** [str.isspace] on one character, for the characters below 128: the
    controls 9-13 and 28-31, and the blank. *)
Definition isspace (c : ascii) : bool :=
  let n := nat_of_ascii c in
  ((9 <=? n)%nat && (n <=? 13)%nat) || ((28 <=? n)%nat && (n <=? 32)%nat).

(** [s.split()]: the maximal runs of characters that are not white space. *)
Fixpoint split (s : string) : list string :=
  match s with
  | EmptyString => []
  | String c s' =>
      if isspace c then split s'
      else
        match s' with
        | EmptyString => [String c EmptyString]
        | String c' _ =>
            if isspace c' then String c EmptyString :: split s'
            else
              match split s' with
              | w :: ws => String c w :: ws
              | [] => [String c EmptyString]
              end
        end
  end.

(** [s.lstrip()] and [s.lstrip(chars)] for a predicate on characters. *)
Fixpoint lstrip_by (p : ascii -> bool) (s : string) : string :=
  match s with
  | EmptyString => EmptyString
  | String c s' => if p c then lstrip_by p s' else s
  end.

Definition lstrip : string -> string := lstrip_by isspace.

(** [s.rstrip()]. *)
Fixpoint rstrip (s : string) : string :=
  match s with
  | EmptyString => EmptyString
  | String c s' =>
      match rstrip s' with
      | EmptyString => if isspace c then EmptyString else String c EmptyString
      | r => String c r
      end
  end.

Definition strip (s : string) : string := rstrip (lstrip s).

(** The first word of a string that starts with no white space, and what
    follows it. *)
Fixpoint break_word (s : string) : string * string :=
  match s with
  | EmptyString => (EmptyString, EmptyString)
  | String c s' =>
      if isspace c then (EmptyString, s)
      else let '(w, r) := break_word s' in (String c w, r)
  end.

(** [s.split(maxsplit=1)]: the first word, then the rest of the string from
    its next character that is not white space, kept as it is. *)
Definition split_max1 (s : string) : list string :=
  match lstrip s with
  | EmptyString => []
  | s1 =>
      let '(w, r) := break_word s1 in
      match lstrip r with
      | EmptyString => [w]
      | r' => [w; r']
      end
  end.

(** [s.lower()] on the letters A-Z. *)
Definition lower_char (c : ascii) : ascii :=
  let n := nat_of_ascii c in
  if (65 <=? n)%nat && (n <=? 90)%nat then ascii_of_nat (n + 32) else c.

Fixpoint lower (s : string) : string :=
  match s with
  | EmptyString => EmptyString
  | String c s' => String (lower_char c) (lower s')
  end.

(** [s[:n]]. *)
Fixpoint take (n : nat) (s : string) : string :=
  match n, s with
  | S n', String c s' => String c (take n' s')
  | _, _ => EmptyString
  end.

(** [', '.join(l)]. *)
Fixpoint join (sep : string) (l : list string) : string :=
  match l with
  | [] => EmptyString
  | [x] => x
  | x :: l' => x +:+ sep +:+ join sep l'
  end.

(** [x > y] and [x <= y] on numbers. *)
Definition gt (x y : Q) : bool := negb (Qle_bool x y).

Definition le (x y : Q) : bool := Qle_bool x y.

(** [max(a, b)] on two numbers: the first of the two unless the second is
    strictly greater. *)
Definition max (a b : Q) : Q := if gt b a then b else a.

(** [x // k] and [x % k] on a number and a positive integer constant. *)
Definition floordiv (x : Q) (k : Z) : Z := Qfloor (x / inject_Z k).

Definition mod_ (x : Q) (k : Z) : Q :=
  (x - inject_Z k * inject_Z (floordiv x k))%Q.

(** [str(n)] and the [{n}] of an f-string on an [int]. *)
Definition str (n : Z) : string := pretty n.

End Py.

(** ** Data model *)

(** Modelled from the spec: the model class [Video] of models.py, which is
    not among the sources; the table content(id TEXT PRIMARY KEY, locator
    TEXT) of the spec, with the attribute names [id] and [url] that
    [bot_db.py] uses. *)
Record Video := mkVideo { video_id : string; url : string }.

(** Modelled from the spec: the model class [VipUser] of models.py, which
    is not among the sources; the table entitlement(userId TEXT PRIMARY KEY,
    expiresAt REAL, package TEXT) of the spec, with the attribute names
    [user_id], [expiry_time] and [package] that [bot_db.py] uses. *)
Record VipUser := mkVipUser {
  user_id : string;
  expiry_time : Q;
  package : string
}.

(** Modelled from the spec: the method [VipUser.is_active] of models.py,
    which is not among the sources.  The spec gives validity as
    [expiresAt > now], computed when the row is read. *)
Definition is_active (now : Q) (v : VipUser) : bool :=
  Py.gt (expiry_time v) now.

(** [ADMIN_ID] is an [int], or the string of the environment when that
    string starts with an at sign (lines 47-58). *)
Inductive AdminId :=
  | AdminInt (n : Z)
  | AdminStr (s : string).

(** The value of [ADMIN_ID] when the variable is not set (its default is the
    string of the digit zero, read by [int]) or is not a number. *)
Definition ADMIN_ID_unset : AdminId := AdminInt 0.

(** What the handlers read of an inbound message: [message.from_user.id],
    [message.from_user.username] ([None] for a user without one),
    [message.chat.id] and [message.text]. *)
Record Message := mkMessage {
  from_user_id : Z;
  from_user_username : option string;
  chat_id : Z;
  text : string
}.

(** [VIP_PACKAGES], a dict: the keys in the order they were inserted. *)
Definition VIP_PACKAGES : list (string * Z) :=
  [("1day", 1%Z); ("3days", 3%Z); ("7days", 7%Z); ("30days", 30%Z)].

Fixpoint dict_get (d : list (string * Z)) (k : string) : option Z :=
  match d with
  | [] => None
  | (k', v) :: d' => if String.eqb k k' then Some v else dict_get d' k
  end.

Definition dict_keys (d : list (string * Z)) : list string := map fst d.

(** What a handler reads besides the message and the tables. *)
Record Env := mkEnv {
  (** the module constant [ADMIN_ID] *)
  ADMIN_ID : AdminId;
  (** the module constant [PAYMENT_LINK] *)
  PAYMENT_LINK : string;
  (** [time.time()] *)
  time_time : Q;
  (** [str(uuid.uuid4())] *)
  uuid4 : string;
  (** [bot.get_me().username] *)
  bot_username : string;
  (** [time.strftime("%Y-%m-%d %H:%M:%S", time.localtime(t))] *)
  strftime_localtime : Q -> string;
  (** the chat that [int(target_user_id)] names when a message to it is
      delivered; [None] when [int] or [bot.send_message] raises *)
  notify_chat : string -> option Z
}.

(** ** The store, the transport and the handler monad *)

Inductive Table := TVideo | TVipUser.

(** The statements a handler issues through [Model.query] and
    [db.session]. *)
Inductive DbOp :=
  | Select (t : Table) (key : string)
  | Insert (t : Table) (key : string)
  | Update (t : Table) (key : string)
  | Delete (t : Table) (key : string).

(** A table with a primary key is a map from the key to the other columns
    of the row. *)
Record World := mkWorld {
  (** the table of [Video]: [id] to [url] *)
  videos : gmap string string;
  (** the table of [VipUser]: [user_id] to [expiry_time] and [package] *)
  vip_users : gmap string (Q * string);
  (** the messages handed to [bot.send_message], oldest first *)
  outbox : list (Z * string);
  (** the statements issued, oldest first *)
  db_log : list DbOp
}.

Inductive Exn :=
  | IntegrityError
  | NotifyError.

Inductive Result (A : Type) :=
  | Ok (a : A)
  | Raised (e : Exn).

Arguments Ok {A} a.
Arguments Raised {A} e.

Definition M (A : Type) : Type := World -> Result A * World.

Definition ret {A} (a : A) : M A := fun w => (Ok a, w).

Definition bind {A B} (c : M A) (k : A -> M B) : M B :=
  fun w =>
    match c w with
    | (Ok a, w') => k a w'
    | (Raised e, w') => (Raised e, w')
    end.

Definition raise {A} (e : Exn) : M A := fun w => (Raised e, w).

(** [try: c  except Exception: h]. *)
Definition try_except {A} (c : M A) (h : Exn -> M A) : M A :=
  fun w =>
    match c w with
    | (Ok a, w') => (Ok a, w')
    | (Raised e, w') => h e w'
    end.

Notation "x <- c ;; k" := (bind c (fun x => k))
  (at level 100, c at next level, right associativity).
Notation "c ;;; k" := (bind c (fun _ => k))
  (at level 100, right associativity).

(** The world after one more statement, with other rows in a table, and
    after one more message. *)
Definition logged (op : DbOp) (w : World) : World :=
  mkWorld (videos w) (vip_users w) (outbox w) (db_log w ++ [op]).

Definition with_videos (vs : gmap string string) (w : World) : World :=
  mkWorld vs (vip_users w) (outbox w) (db_log w).

Definition with_vip_users (us : gmap string (Q * string)) (w : World) : World :=
  mkWorld (videos w) us (outbox w) (db_log w).

Definition sent (chat : Z) (txt : string) (w : World) : World :=
  mkWorld (videos w) (vip_users w) (outbox w ++ [(chat, txt)]) (db_log w).

Definition log_db (op : DbOp) : M unit := fun w => (Ok tt, logged op w).

Definition set_videos (vs : gmap string string) : M unit :=
  fun w => (Ok tt, with_videos vs w).

Definition set_vip_users (us : gmap string (Q * string)) : M unit :=
  fun w => (Ok tt, with_vip_users us w).

(** [bot.send_message(message.chat.id, text)]: a reply to the chat the
    command came from. *)
Definition send_message (chat : Z) (txt : string) : M unit :=
  fun w => (Ok tt, sent chat txt w).

(** The object of a row. *)
Definition Video_of_row (key : string) (row : string) : Video :=
  mkVideo key row.

Definition VipUser_of_row (key : string) (row : Q * string) : VipUser :=
  mkVipUser key (fst row) (snd row).

Definition row_of_VipUser (v : VipUser) : Q * string :=
  (expiry_time v, package v).

(** [Video.query.get(key)] and [VipUser.query.get(key)]: the row of that
    primary key, or [None]. *)
Definition Video_query_get (key : string) : M (option Video) :=
  log_db (Select TVideo key) ;;;
  fun w => (Ok (Video_of_row key <$> videos w !! key), w).

Definition VipUser_query_get (key : string) : M (option VipUser) :=
  log_db (Select TVipUser key) ;;;
  fun w => (Ok (VipUser_of_row key <$> vip_users w !! key), w).

(** [db.session.add(obj); db.session.commit()] for an object built with the
    class constructor: the session holds it as a new object and the commit
    flushes an INSERT.  [add] is no merge: the key that [query.get] looks
    rows up by is the primary key of the table, so the INSERT of a key that
    the table holds already is refused, the commit raises [IntegrityError],
    and the transaction is rolled back with no row changed. *)
Definition Video_add_commit (v : Video) : M unit :=
  log_db (Insert TVideo (video_id v)) ;;;
  fun w =>
    match videos w !! video_id v with
    | Some _ => raise IntegrityError w
    | None => set_videos (<[video_id v := url v]> (videos w)) w
    end.

Definition VipUser_add_commit (v : VipUser) : M unit :=
  log_db (Insert TVipUser (user_id v)) ;;;
  fun w =>
    match vip_users w !! user_id v with
    | Some _ => raise IntegrityError w
    | None => set_vip_users (<[user_id v := row_of_VipUser v]> (vip_users w)) w
    end.

(** Attribute assignments on a row that [query.get] returned, then
    [db.session.commit()]: an UPDATE of that row. *)
Definition VipUser_update_commit (v : VipUser) : M unit :=
  log_db (Update TVipUser (user_id v)) ;;;
  fun w => set_vip_users (<[user_id v := row_of_VipUser v]> (vip_users w)) w.

(** [db.session.delete(obj); db.session.commit()] on a row that
    [query.get] returned. *)
Definition Video_delete_commit (v : Video) : M unit :=
  log_db (Delete TVideo (video_id v)) ;;;
  fun w => set_videos (delete (video_id v) (videos w)) w.

Definition VipUser_delete_commit (v : VipUser) : M unit :=
  log_db (Delete TVipUser (user_id v)) ;;;
  fun w => set_vip_users (delete (user_id v) (vip_users w)) w.

(** ** Helpers of [bot_db.py] *)

(** The line feed of the Python literals. *)
Definition nl : string := String (ascii_of_nat 10) EmptyString.

(** [f"{x}"] on a value that is a [str] or [None]. *)
Definition fstr (u : option string) : string :=
  match u with
  | Some s => s
  | None => "None"
  end.

(** [u == s] on a value that is a [str] or [None]. *)
Definition opt_eqb (u : option string) (s : string) : bool :=
  match u with
  | Some x => String.eqb x s
  | None => false
  end.

(** The truth value of a [str] or [None]. *)
Definition truthy (u : option string) : bool :=
  match u with
  | Some EmptyString => false
  | Some _ => true
  | None => false
  end.

Definition is_at (c : ascii) : bool := Ascii.eqb c "@"%char.

(** The test of line 102: [ADMIN_ID == 0 or ADMIN_ID == "0" or
    ADMIN_ID == ""]; an [int] equals no [str]. *)
Definition admin_unset (a : AdminId) : bool :=
  match a with
  | AdminInt n => (n =? 0)%Z
  | AdminStr s => String.eqb s "0" || String.eqb s ""
  end.

(** [is_admin] (lines 75-106).  The branch of an [int] returns at line 88;
    only the branch of a string falls through to the test of line 102. *)
Definition is_admin (admin : AdminId) (message : Message) : bool :=
  let user_id := from_user_id message in
  let username := from_user_username message in
  if opt_eqb username "Dssky7282"
     || String.eqb ("@" +:+ fstr username) "@Dssky7282"
  then true
  else
    match admin with
    | AdminInt n => (user_id =? n)%Z
    | AdminStr s =>
        if truthy username
           && (String.eqb ("@" +:+ fstr username) s
               || opt_eqb username (Py.lstrip_by is_at s))
        then true
        else if admin_unset admin then true
        else false
    end.

(** [get_vip_time_remaining] (lines 123-140); [now] is its [time.time()]. *)
Definition get_vip_time_remaining (now expiry_time : Q) : string :=
  let remaining := (expiry_time - now)%Q in
  if Py.le remaining 0 then "expired"
  else
    let days := Py.floordiv remaining (24 * 3600) in
    let remaining := Py.mod_ remaining (24 * 3600) in
    let hours := Py.floordiv remaining 3600 in
    let remaining := Py.mod_ remaining 3600 in
    let minutes := Py.floordiv remaining 60 in
    if (days >? 0)%Z then
      Py.str days +:+ " days, " +:+ Py.str hours +:+ " hours"
    else if (hours >? 0)%Z then
      Py.str hours +:+ " hours, " +:+ Py.str minutes +:+ " minutes"
    else
      Py.str minutes +:+ " minutes".

(** The remaining time as the spec words it: the whole seconds that remain
    are cut by integer division into whole days, whole hours of the
    remainder and whole minutes of the remainder. *)
Definition formatRemaining_spec (seconds : Z) : string :=
  let days := (seconds / 86400)%Z in
  let rest := (seconds mod 86400)%Z in
  let hours := (rest / 3600)%Z in
  let rest := (rest mod 3600)%Z in
  let minutes := (rest / 60)%Z in
  if (0 <? days)%Z then
    Py.str days +:+ " days, " +:+ Py.str hours +:+ " hours"
  else if (0 <? hours)%Z then
    Py.str hours +:+ " hours, " +:+ Py.str minutes +:+ " minutes"
  else
    Py.str minutes +:+ " minutes".

(** ** The replies *)

Definition msg_admins_only : string :=
  "❌ This command is only available for admins.".

Definition msg_invalid_link : string :=
  "❌ This video link is invalid or has expired.".

Definition msg_offer (payment_link : string) : string :=
  "Please make a payment at " +:+ payment_link +:+ " to get VIP access." +:+ nl +:+ nl
  +:+ "Available packages:" +:+ nl
  +:+ "• 1 day VIP" +:+ nl
  +:+ "• 3 days VIP" +:+ nl
  +:+ "• 7 days VIP" +:+ nl
  +:+ "• 30 days VIP" +:+ nl +:+ nl
  +:+ "After payment, send the screenshot to the admin for verification.".

Definition msg_video (video_url time_remaining : string) : string :=
  "✅ Here's your video: " +:+ video_url +:+ nl +:+ nl
  +:+ "Your VIP status is active. Time remaining: " +:+ time_remaining +:+ ".".

Definition msg_requires_vip (payment_link : string) : string :=
  "🔒 This content requires VIP access." +:+ nl +:+ nl +:+ msg_offer payment_link.

Definition msg_welcome (vip_status_text : string) : string :=
  "👋 Welcome to the VIP Video Bot!" +:+ nl +:+ nl
  +:+ "Use the links shared by admins to access premium videos." +:+ vip_status_text.

Definition msg_addvideo_usage : string := "❌ Usage: /addvideo <video_url>".

Definition msg_video_added (deep_link video_id video_url : string) : string :=
  "✅ Video added successfully!" +:+ nl +:+ nl
  +:+ "🔗 Share this link for paid access:" +:+ nl +:+ deep_link +:+ nl +:+ nl
  +:+ "🆔 Video ID: " +:+ video_id +:+ nl
  +:+ "🎬 URL: " +:+ video_url.

Definition msg_setvip_usage : string :=
  "❌ Usage: /setvip <user_id> <package>" +:+ nl +:+ nl
  +:+ "Available packages: 1day, 3days, 7days, 30days".

Definition msg_invalid_package : string :=
  "❌ Invalid package. Available packages: " +:+ Py.join ", " (dict_keys VIP_PACKAGES).

Definition msg_vip_set (target_user_id package : string) (days : Z) (expiry_date : string)
  : string :=
  "✅ VIP status set for user " +:+ target_user_id +:+ nl
  +:+ "📦 Package: " +:+ package +:+ " (" +:+ Py.str days +:+ " days)" +:+ nl
  +:+ "⏱ Expires on: " +:+ expiry_date.

Definition msg_congratulations (days : Z) (expiry_date : string) : string :=
  "🌟 Congratulations! You now have VIP access!" +:+ nl +:+ nl
  +:+ "Your VIP status is valid for " +:+ Py.str days +:+ " days until " +:+ expiry_date
  +:+ "." +:+ nl
  +:+ "You can now access all premium videos shared with you.".

Definition msg_could_not_notify : string :=
  "⚠️ Could not notify the user. They may need to start the bot first.".

Definition msg_setvip_error : string :=
  "❌ Error setting VIP status. Check logs for details.".

Definition msg_delvideo_usage : string := "❌ Usage: /delvideo <video_id>".

Definition msg_video_deleted (video_id : string) : string :=
  "✅ Video with ID " +:+ video_id +:+ " deleted successfully!".

Definition msg_video_not_found (video_id : string) : string :=
  "❌ Video with ID " +:+ video_id +:+ " not found.".

Definition msg_removevip_usage : string := "❌ Usage: /removevip <user_id>".

Definition msg_vip_removed (target_user_id : string) : string :=
  "✅ VIP status removed for user " +:+ target_user_id +:+ ".".

Definition msg_vip_revoked : string :=
  "⚠️ Your VIP access has been revoked by the administrator.".

Definition msg_no_vip_status (target_user_id : string) : string :=
  "❌ User " +:+ target_user_id +:+ " does not have VIP status.".

Definition msg_removevip_error : string :=
  "❌ Error removing VIP status. Check logs for details.".

(** ** The command handlers *)

Section Handlers.

Variable env : Env.

(** [bot.send_message(int(target_user_id), text)]: a message to a user
    named in a command.  It raises when [int] refuses the identifier or the
    transport refuses the chat. *)
Definition send_to_user (target_user_id txt : string) : M unit :=
  match notify_chat env target_user_id with
  | Some chat => send_message chat txt
  | None => raise NotifyError
  end.

(** [is_vip] (lines 109-120). *)
Definition is_vip (user_id : Z) : M (bool * Q) :=
  let user_id_str := Py.str user_id in
  vip_user <- VipUser_query_get user_id_str ;;
  match vip_user with
  | Some vip_user =>
      if is_active (time_time env) vip_user
      then ret (true, expiry_time vip_user)
      else ret (false, 0%Q)
  | None => ret (false, 0%Q)
  end.

(** [handle_start] (lines 143-200). *)
Definition handle_start (message : Message) : M unit :=
  let user_id := from_user_id message in
  let args := Py.split (text message) in
  match args with
  | _ :: video_id :: _ =>
      video <- Video_query_get video_id ;;
      match video with
      | Some video =>
          r <- is_vip user_id ;;
          let '(vip_status, expiry_time) := r in
          if vip_status : bool then
            let video_url := url video in
            let time_remaining := get_vip_time_remaining (time_time env) expiry_time in
            send_message (chat_id message) (msg_video video_url time_remaining)
          else
            send_message (chat_id message) (msg_requires_vip (PAYMENT_LINK env))
      | None =>
          send_message (chat_id message) msg_invalid_link
      end
  | _ =>
      r <- is_vip user_id ;;
      let '(vip_status, expiry_time) := r in
      let vip_status_text :=
        if vip_status : bool then
          let time_remaining := get_vip_time_remaining (time_time env) expiry_time in
          nl +:+ nl +:+ "✨ You have VIP status! Time remaining: " +:+ time_remaining
        else "" in
      send_message (chat_id message) (msg_welcome vip_status_text)
  end.

(** [handle_add_video] (lines 203-238). *)
Definition handle_add_video (message : Message) : M unit :=
  if negb (is_admin (ADMIN_ID env) message) then
    send_message (chat_id message) msg_admins_only
  else
    let args := Py.split_max1 (text message) in
    match args with
    | _ :: arg1 :: _ =>
        let video_url := Py.strip arg1 in
        let video_id := Py.take 8 (uuid4 env) in
        Video_add_commit (mkVideo video_id video_url) ;;;
        let deep_link :=
          "https://t.me/" +:+ bot_username env +:+ "?start=" +:+ video_id in
        send_message (chat_id message) (msg_video_added deep_link video_id video_url)
    | _ =>
        send_message (chat_id message) msg_addvideo_usage
    end.

(** The block of lines 274-287 of [handle_set_vip]: the grant of [package]
    until [expiry_time] to [target_user_id]. *)
Definition set_vip_store (target_user_id : string) (expiry_time' : Q)
    (package' : string) : M unit :=
  vip_user <- VipUser_query_get target_user_id ;;
  let create :=
    VipUser_add_commit (mkVipUser target_user_id expiry_time' package') in
  match vip_user with
  | Some vip_user =>
      if is_active (time_time env) vip_user then
        VipUser_update_commit
          (mkVipUser (user_id vip_user)
                     (Py.max (expiry_time vip_user) expiry_time')
                     package')
      else create
  | None => create
  end.

(** [handle_set_vip] (lines 241-317). *)
Definition handle_set_vip (message : Message) : M unit :=
  if negb (is_admin (ADMIN_ID env) message) then
    send_message (chat_id message) msg_admins_only
  else
    let args := Py.split (text message) in
    match args with
    | _ :: target_user_id :: arg2 :: _ =>
        try_except
          (let package := Py.lower arg2 in
           match dict_get VIP_PACKAGES package with
           | None =>
               send_message (chat_id message) msg_invalid_package
           | Some days =>
               let current_time := time_time env in
               let expiry_time :=
                 (current_time + inject_Z (days * 24 * 60 * 60))%Q in
               set_vip_store target_user_id expiry_time package ;;;
               let expiry_date := strftime_localtime env expiry_time in
               send_message (chat_id message)
                 (msg_vip_set target_user_id package days expiry_date) ;;;
               try_except
                 (send_to_user target_user_id (msg_congratulations days expiry_date))
                 (fun _ => send_message (chat_id message) msg_could_not_notify)
           end)
          (fun _ => send_message (chat_id message) msg_setvip_error)
    | _ =>
        send_message (chat_id message) msg_setvip_usage
    end.

(** The block of lines 393-402 of [handle_del_video]: the delete of the
    video [video_id], answered to [chat]. *)
Definition del_video_store (chat : Z) (video_id : string) : M unit :=
  video <- Video_query_get video_id ;;
  match video with
  | Some video =>
      Video_delete_commit video ;;;
      send_message chat (msg_video_deleted video_id)
  | None =>
      send_message chat (msg_video_not_found video_id)
  end.

(** [handle_del_video] (lines 378-402). *)
Definition handle_del_video (message : Message) : M unit :=
  if negb (is_admin (ADMIN_ID env) message) then
    send_message (chat_id message) msg_admins_only
  else
    let args := Py.split (text message) in
    match args with
    | _ :: video_id :: _ =>
        del_video_store (chat_id message) video_id
    | _ =>
        send_message (chat_id message) msg_delvideo_usage
    end.

(** The block of lines 462-481 of [handle_remove_vip]: the delete of the
    row of [target_user_id], answered to [chat]. *)
Definition remove_vip_store (chat : Z) (target_user_id : string) : M unit :=
  vip_user <- VipUser_query_get target_user_id ;;
  match vip_user with
  | Some vip_user =>
      VipUser_delete_commit vip_user ;;;
      send_message chat (msg_vip_removed target_user_id) ;;;
      try_except
        (send_to_user target_user_id msg_vip_revoked)
        (fun _ => ret tt)
  | None =>
      send_message chat (msg_no_vip_status target_user_id)
  end.

(** [handle_remove_vip] (lines 446-485). *)
Definition handle_remove_vip (message : Message) : M unit :=
  if negb (is_admin (ADMIN_ID env) message) then
    send_message (chat_id message) msg_admins_only
  else
    let args := Py.split (text message) in
    match args with
    | _ :: target_user_id :: _ =>
        try_except
          (remove_vip_store (chat_id message) target_user_id)
          (fun _ => send_message (chat_id message) msg_removevip_error)
    | _ =>
        send_message (chat_id message) msg_removevip_usage
    end.

End Handlers.

(** The four commands that change a table. *)
Inductive MutatingCommand := SetVip | RemoveVip | AddVideo | DelVideo.

Definition handle (env : Env) (c : MutatingCommand) : Message -> M unit :=
  match c with
  | SetVip => handle_set_vip env
  | RemoveVip => handle_remove_vip env
  | AddVideo => handle_add_video env
  | DelVideo => handle_del_video env
  end.


(** ** Vocabulary of the statements *)

(** The expiry a package of [days] days asks for. *)
Definition requested_expiry (env : Env) (days : Z) : Q :=
  (time_time env + inject_Z (days * 24 * 60 * 60))%Q.

(** Fewer than two arguments after the command: [len(args) < 3]. *)
Definition fewer_than_two_arguments (message : Message) : bool :=
  match Py.split (text message) with
  | _ :: _ :: _ :: _ => false
  | _ => true
  end.

(** The package argument, in lower case, is no key of [VIP_PACKAGES]. *)
Definition package_outside_enumeration (message : Message) : bool :=
  match Py.split (text message) with
  | _ :: _ :: arg2 :: _ =>
      match dict_get VIP_PACKAGES (Py.lower arg2) with
      | Some _ => false
      | None => true
      end
  | _ => false
  end.

Definition setvip_malformed (message : Message) : bool :=
  fewer_than_two_arguments message || package_outside_enumeration message.

(** The claim as it is worded: every malformed [/setvip] is answered with
    the usage text or the text of the invalid package, and nothing else
    happens. *)
Definition malformed_setvip_answered (env : Env) (message : Message) (w : World) : Prop :=
  setvip_malformed message = true ->
  exists reply,
    (reply = msg_setvip_usage \/ reply = msg_invalid_package) /\
    handle_set_vip env message w = (Ok tt, sent (chat_id message) reply w).

(** ** A scenario: one numeric admin, one expired and one valid user *)

Definition env_admin1 : Env :=
  mkEnv (AdminInt 1) "https://trakteer.id/yourusername" 1000
        "0a1b2c3d-0000-4000-8000-000000000000" "vipbot"
        (fun _ => "1970-01-01 00:00:00")
        (fun s => if String.eqb s "42" then Some 42%Z else None).

Definition from_admin1 (t : string) : Message := mkMessage 1 (Some "boss") 1 t.

Definition w_expired : World :=
  mkWorld (<["deadbeef" := "https://example.org/v.mp4"]> ∅)
          (<["42" := (500%Q, "1day")]> ∅) [] [].

Definition w_active : World :=
  mkWorld ∅ (<["42" := (865000%Q, "30days")]> ∅) [] [].

(** ** The configuration of the admin (lines 47-58) *)

(** [s.startswith('@')]. *)
Definition startswith_at (s : string) : bool :=
  match s with
  | String c _ => is_at c
  | EmptyString => false
  end.

(** Lines 47-58: [ADMIN_ID] from the value of the environment variable, or
    from its default, the text of the digit zero.  [py_int] is [int] on a
    string: the number it reads, or [None] when it raises [ValueError]. *)
Definition configure_admin (py_int : string -> option Z) (environ : option string)
  : AdminId :=
  let admin_id_str :=
    match environ with
    | Some s => s
    | None => "0"
    end in
  if startswith_at admin_id_str then AdminStr admin_id_str
  else
    match py_int admin_id_str with
    | Some n => AdminInt n
    | None => AdminInt 0
    end.

(** ** The handlers that change no table *)

Definition msg_vip_status (time_remaining expiry_date : string) : string :=
  "✅ You have VIP access!" +:+ nl +:+ nl
  +:+ "⏱ Time remaining: " +:+ time_remaining +:+ nl
  +:+ "📅 Expires on: " +:+ expiry_date.

Definition msg_no_vip_access (payment_link : string) : string :=
  "❌ You don't have VIP access." +:+ nl +:+ nl +:+ msg_offer payment_link.

Definition msg_no_videos : string := "No videos have been added yet.".

Definition msg_no_vip_users : string := "No VIP users found.".


Definition deep_link_of (bot_username video_id : string) : string :=
  "https://t.me/" +:+ bot_username +:+ "?start=" +:+ video_id.

(** One turn of the loop of lines 370-372. *)
Definition video_list_step (bot_username : string) (video_list : string) (video : Video)
  : string :=
  let deep_link := deep_link_of bot_username (video_id video) in
  video_list
  +:+ ("🆔 " +:+ video_id video +:+ nl
       +:+ "🎬 " +:+ url video +:+ nl
       +:+ "🔗 " +:+ deep_link +:+ nl +:+ nl).

(** The state of the loop of lines 426-437: the text and the two counts. *)
Record VipListing := mkVipListing {
  vip_list : string;
  active_count : Z;
  expired_count : Z
}.

(** One turn of the loop of lines 426-437; [current_time] is the
    [time.time()] of line 424 and of [get_vip_time_remaining]. *)
Definition vip_list_step (strftime : Q -> string) (current_time : Q)
    (acc : VipListing) (user : VipUser) : VipListing :=
  let expiry_date := strftime (expiry_time user) in
  if Py.gt (expiry_time user) current_time then
    let status := "✅ Active" in
    let time_remaining := get_vip_time_remaining current_time (expiry_time user) in
    mkVipListing
      (vip_list acc
       +:+ ("👤 User ID: " +:+ user_id user +:+ nl
            +:+ status +:+ nl
            +:+ "⏱ Remaining: " +:+ time_remaining +:+ nl
            +:+ "📅 Expires: " +:+ expiry_date +:+ nl +:+ nl))
      (active_count acc + 1)
      (expired_count acc)
  else
    let status := "❌ Expired" in
    mkVipListing
      (vip_list acc
       +:+ ("👤 User ID: " +:+ user_id user +:+ nl
            +:+ status +:+ nl
            +:+ "📅 Expired on: " +:+ expiry_date +:+ nl +:+ nl))
      (active_count acc)
      (expired_count acc + 1).

Definition vip_summary (active expired : Z) : string :=
  "Summary: " +:+ Py.str active +:+ " active, " +:+ Py.str expired
  +:+ " expired VIP users.".

(** [Video.query.all()] and [VipUser.query.all()]: the rows of the table, in
    the order the table gives them; the source asks for none.  A scan is no
    statement on one primary key and [db_log] does not record it. *)
Definition Video_query_all : M (list Video) :=
  fun w => (Ok (map (fun kv => Video_of_row (fst kv) (snd kv)) (map_to_list (videos w))), w).

Definition VipUser_query_all : M (list VipUser) :=
  fun w =>
    (Ok (map (fun kv => VipUser_of_row (fst kv) (snd kv)) (map_to_list (vip_users w))), w).



Section ReadingHandlers.

Variable env : Env.

(** [handle_vip_status] (lines 320-348). *)
Definition handle_vip_status (message : Message) : M unit :=
  let user_id := from_user_id message in
  r <- is_vip env user_id ;;
  let '(vip_status, expiry_time) := r in
  if vip_status : bool then
    let expiry_date := strftime_localtime env expiry_time in
    let time_remaining := get_vip_time_remaining (time_time env) expiry_time in
    send_message (chat_id message) (msg_vip_status time_remaining expiry_date)
  else
    send_message (chat_id message) (msg_no_vip_access (PAYMENT_LINK env)).

(** [handle_list_videos] (lines 351-375). *)
Definition handle_list_videos (message : Message) : M unit :=
  if negb (is_admin (ADMIN_ID env) message) then
    send_message (chat_id message) msg_admins_only
  else
    videos <- Video_query_all ;;
    match videos with
    | [] => send_message (chat_id message) msg_no_videos
    | _ =>
        let bot_username := bot_username env in
        let video_list := "📋 List of Videos:" +:+ nl +:+ nl in
        let video_list := fold_left (video_list_step bot_username) videos video_list in
        send_message (chat_id message) video_list
    end.

(** [handle_list_vip] (lines 405-443). *)
Definition handle_list_vip (message : Message) : M unit :=
  if negb (is_admin (ADMIN_ID env) message) then
    send_message (chat_id message) msg_admins_only
  else
    vip_users <- VipUser_query_all ;;
    match vip_users with
    | [] => send_message (chat_id message) msg_no_vip_users
    | _ =>
        let start :=
          mkVipListing ("📋 List of VIP Users:" +:+ nl +:+ nl) 0 0 in
        let current_time := time_time env in
        let acc :=
          fold_left (vip_list_step (strftime_localtime env) current_time)
            vip_users start in
        let vip_list :=
          vip_list acc +:+ vip_summary (active_count acc) (expired_count acc) in
        send_message (chat_id message) vip_list
    end.



End ReadingHandlers.



(** The commands behind the gate of [is_admin]. *)
Inductive AdminCommand :=
  | Mutating (c : MutatingCommand)
  | AdminListVideos
  | AdminListVip.

Definition handle_admin (env : Env) (c : AdminCommand) : Message -> M unit :=
  match c with
  | Mutating c => handle env c
  | AdminListVideos => handle_list_videos env
  | AdminListVip => handle_list_vip env
  end.

(** A string without white space that is not empty: one word of [split]. *)
Fixpoint no_space (s : string) : bool :=
  match s with
  | EmptyString => true
  | String c s' => negb (Py.isspace c) && no_space s'
  end.

Definition is_word (s : string) : bool :=
  match s with
  | EmptyString => false
  | _ => no_space s
  end.

(** The lines of one video in the text of [/listvideos], and those of a
    list of videos. *)
Definition video_entry (bot_username : string) (video : Video) : string :=
  "🆔 " +:+ video_id video +:+ nl
  +:+ "🎬 " +:+ url video +:+ nl
  +:+ "🔗 " +:+ deep_link_of bot_username (video_id video) +:+ nl +:+ nl.

Definition video_entries (bot_username : string) (l : list Video) : string :=
  fold_right (fun v s => video_entry bot_username v +:+ s) "" l.

(** One text holds another. *)
Definition contains (s t : string) : Prop :=
  exists pre post, s = pre +:+ t +:+ post.

(** The rows of a list whose expiry is after [now]. *)
Definition count_active (now : Q) (l : list VipUser) : nat :=
  length (List.filter (fun v => Py.gt (expiry_time v) now) l).

(** The environment at another time. *)
Definition at_time (env : Env) (t : Q) : Env :=
  mkEnv (ADMIN_ID env) (PAYMENT_LINK env) t (uuid4 env) (bot_username env)
        (strftime_localtime env) (notify_chat env).

(** The environment with another outcome of the messages to users. *)
Definition with_notify_chat (env : Env) (f : string -> option Z) : Env :=
  mkEnv (ADMIN_ID env) (PAYMENT_LINK env) (time_time env) (uuid4 env)
        (bot_username env) (strftime_localtime env) f.

(** Every package stored in the table of entitlements is a key of
    [VIP_PACKAGES]. *)
Definition packages_known (w : World) : Prop :=
  forall k row, vip_users w !! k = Some row -> In (snd row) (dict_keys VIP_PACKAGES).

(** * Properties *)

(** ** The built-ins on concrete inputs *)

Example split_setvip : Py.split "/setvip 42  7days" = ["/setvip"; "42"; "7days"].
Proof. reflexivity. Qed.

Example split_blank : Py.split "  /start " = ["/start"].
Proof. reflexivity. Qed.

Example split_max1_addvideo :
  Py.split_max1 "/addvideo  http://x/a b " = ["/addvideo"; "http://x/a b "].
Proof. reflexivity. Qed.

Example strip_url : Py.strip " http://x/a b  " = "http://x/a b".
Proof. reflexivity. Qed.

Example lower_pkg : Py.lower "7DAYS" = "7days".
Proof. reflexivity. Qed.

Example invalid_package_text :
  msg_invalid_package
  = "❌ Invalid package. Available packages: 1day, 3days, 7days, 30days".
Proof. reflexivity. Qed.

(** ** Comparison and [max] *)

Lemma gt_true (x y : Q) : Py.gt x y = true <-> (y < x)%Q.
Proof.
  unfold Py.gt. rewrite negb_true_iff.
  destruct (Qle_bool x y) eqn:E.
  - apply Qle_bool_iff in E. split; [discriminate | intros H; lra].
  - split; [intros _ | reflexivity].
    destruct (Qlt_le_dec y x) as [H | H]; [exact H |].
    apply Qle_bool_iff in H. congruence.
Qed.

Lemma gt_false (x y : Q) : Py.gt x y = false <-> (x <= y)%Q.
Proof.
  unfold Py.gt. rewrite negb_false_iff. apply Qle_bool_iff.
Qed.

Lemma max_ge_l (a b : Q) : (a <= Py.max a b)%Q.
Proof.
  unfold Py.max. destruct (Py.gt b a) eqn:E.
  - apply gt_true in E. lra.
  - lra.
Qed.

Lemma max_ge_r (a b : Q) : (b <= Py.max a b)%Q.
Proof.
  unfold Py.max. destruct (Py.gt b a) eqn:E.
  - lra.
  - apply gt_false in E. exact E.
Qed.

Lemma max_keeps_first (a b : Q) : (b <= a)%Q -> Py.max a b = a.
Proof.
  intros H. unfold Py.max.
  destruct (Py.gt b a) eqn:E; [| reflexivity].
  apply gt_true in E. lra.
Qed.

Lemma max_takes_second (a b : Q) : (a < b)%Q -> Py.max a b = b.
Proof.
  intros H. unfold Py.max.
  apply gt_true in H. now rewrite H.
Qed.

Lemma is_active_iff (now : Q) (v : VipUser) :
  is_active now v = true <-> (now < expiry_time v)%Q.
Proof. apply gt_true. Qed.

(** ** Floor division and remainder *)

Lemma Qfloor_div_pos (x : Q) (k : positive) :
  Qfloor (x / inject_Z (Z.pos k)) = (Qfloor x / Z.pos k)%Z.
Proof.
  destruct x as [n d].
  unfold Qdiv, Qinv, Qmult, Qfloor, inject_Z. simpl.
  rewrite Z.mul_1_r, Pos2Z.inj_mul.
  rewrite Z.div_div; [reflexivity | discriminate | reflexivity].
Qed.

Lemma Qfloor_minus_Z (x : Q) (z : Z) :
  Qfloor (x - inject_Z z) = (Qfloor x - z)%Z.
Proof.
  destruct x as [n d].
  unfold Qminus, Qplus, Qopp, Qfloor, inject_Z. simpl.
  rewrite Pos.mul_1_r, Z.mul_1_r.
  rewrite Z.div_add; [lia | discriminate].
Qed.

Lemma floordiv_floor (x : Q) (k : positive) :
  Py.floordiv x (Z.pos k) = (Qfloor x / Z.pos k)%Z.
Proof. apply Qfloor_div_pos. Qed.

Lemma floor_mod (x : Q) (k : positive) :
  Qfloor (Py.mod_ x (Z.pos k)) = (Qfloor x mod Z.pos k)%Z.
Proof.
  unfold Py.mod_.
  change (inject_Z (Z.pos k) * inject_Z (Py.floordiv x (Z.pos k)))%Q
    with (inject_Z (Z.pos k * Py.floordiv x (Z.pos k))).
  rewrite Qfloor_minus_Z, floordiv_floor.
  rewrite Z.mod_eq; [reflexivity | discriminate].
Qed.

Lemma mod_range (x : Q) (k : positive) :
  (0 <= Py.mod_ x (Z.pos k) < inject_Z (Z.pos k))%Q.
Proof.
  unfold Py.mod_, Py.floordiv.
  set (y := (x / inject_Z (Z.pos k))%Q).
  assert (Hk : (0 < inject_Z (Z.pos k))%Q).
  { change 0%Q with (inject_Z 0). rewrite <- Zlt_Qlt. reflexivity. }
  assert (Hx : (x == inject_Z (Z.pos k) * y)%Q).
  { unfold y. field. lra. }
  pose proof (Qfloor_le y) as Hlo.
  pose proof (Qlt_floor y) as Hhi.
  rewrite inject_Z_plus in Hhi. change (inject_Z 1) with 1%Q in Hhi.
  split.
  - rewrite Hx at 1. nra.
  - rewrite Hx at 1. nra.
Qed.

(** ** C3: the remaining-time text *)

Lemma get_vip_time_remaining_floor (now expiry_time : Q) :
  get_vip_time_remaining now expiry_time
  = if Py.le (expiry_time - now) 0 then "expired"
    else formatRemaining_spec (Qfloor (expiry_time - now)).
Proof.
  unfold get_vip_time_remaining, formatRemaining_spec.
  destruct (Py.le (expiry_time - now) 0); [reflexivity |].
  change (24 * 3600)%Z with 86400%Z.
  rewrite !floordiv_floor, !floor_mod, !Z.gtb_ltb.
  reflexivity.
Qed.

(** C3: [get_vip_time_remaining] gives the fixed text when nothing remains;
    otherwise it cuts the whole remaining seconds by integer division into
    days, hours of the remainder and minutes of the remainder, and shows
    days and hours, else hours and minutes, else minutes alone.  90000 s
    read as 1 day 1 hour, 5400 s as 1 hour 30 minutes, 45 s as 0 minutes,
    and -5 s as expired. *)
Theorem get_vip_time_remaining_correct :
  (forall now expiry_time : Q,
      ((expiry_time - now <= 0)%Q ->
       get_vip_time_remaining now expiry_time = "expired") /\
      ((0 < expiry_time - now)%Q ->
       get_vip_time_remaining now expiry_time
       = formatRemaining_spec (Qfloor (expiry_time - now)))) /\
  (forall now : Q,
      get_vip_time_remaining now (now + 90000) = "1 days, 1 hours" /\
      get_vip_time_remaining now (now + 5400) = "1 hours, 30 minutes" /\
      get_vip_time_remaining now (now + 45) = "0 minutes" /\
      get_vip_time_remaining now (now - 5) = "expired").
Proof.
  assert (Hle : forall x, (x <= 0)%Q -> Py.le x 0 = true).
  { intros x H. now apply Qle_bool_iff. }
  assert (Hgt : forall x, (0 < x)%Q -> Py.le x 0 = false).
  { intros x H. unfold Py.le.
    destruct (Qle_bool x 0) eqn:E; [| reflexivity].
    apply Qle_bool_iff in E. lra. }
  assert (Hfl : forall now z, Qfloor (now + inject_Z z - now) = z).
  { intros now z. rewrite <- (Qfloor_Z z) at 2.
    apply Qfloor_comp. ring. }
  split.
  - intros now e. rewrite get_vip_time_remaining_floor. split; intros H.
    + now rewrite Hle.
    + now rewrite Hgt.
  - intros now. rewrite !get_vip_time_remaining_floor.
    change 90000%Q with (inject_Z 90000).
    change 5400%Q with (inject_Z 5400).
    change 45%Q with (inject_Z 45).
    rewrite !Hfl.
    rewrite !Hgt by (unfold inject_Z; lra).
    rewrite Hle by lra.
    repeat split; reflexivity.
Qed.

(** ** The admin gate *)

Lemma opt_eqb_eq (u : option string) (s : string) :
  opt_eqb u s = true <-> u = Some s.
Proof.
  destruct u as [x |]; simpl.
  - rewrite String.eqb_eq. split; congruence.
  - split; discriminate.
Qed.

Lemma at_fstr_eqb (u : option string) :
  String.eqb ("@" +:+ fstr u) "@Dssky7282" = opt_eqb u "Dssky7282".
Proof.
  destruct u as [x |]; reflexivity.
Qed.

(** With a numeric [ADMIN_ID] the gate is the hardcoded handle or the
    numeric identifier, and nothing else: line 102 is never reached. *)
Lemma is_admin_int (n : Z) (message : Message) :
  is_admin (AdminInt n) message = true
  <-> from_user_username message = Some "Dssky7282" \/ from_user_id message = n.
Proof.
  unfold is_admin. rewrite at_fstr_eqb, orb_diag.
  destruct (opt_eqb (from_user_username message) "Dssky7282") eqn:E.
  - apply opt_eqb_eq in E. tauto.
  - rewrite Z.eqb_eq. split; [tauto |].
    intros [H | H]; [| exact H].
    apply opt_eqb_eq in H. congruence.
Qed.

(** C5: with no admin configured, [is_admin] is expected to admit every
    caller.  The code does not: [ADMIN_ID] is then the [int] zero, the
    branch of line 88 returns the comparison of the caller's identifier
    with zero, and the test of line 102 is not reached.  A caller with the
    identifier 5 and the handle bob is refused. *)
Theorem is_admin_unset_refuses :
  admin_unset ADMIN_ID_unset = true /\
  is_admin ADMIN_ID_unset (mkMessage 5 (Some "bob") 5 "/setvip 5 30days") = false.
Proof. split; reflexivity. Qed.

(** C6: a caller whose handle is the hardcoded one passes [is_admin]
    whatever [ADMIN_ID] is, also when [ADMIN_ID] names another identifier
    or another handle. *)
Theorem is_admin_hardcoded_handle (admin : AdminId) (message : Message) :
  from_user_username message = Some "Dssky7282" ->
  is_admin admin message = true.
Proof.
  intros H. unfold is_admin. rewrite H. reflexivity.
Qed.

Lemma is_admin_hardcoded_handle_witness :
  is_admin (AdminInt 1) (mkMessage 2 (Some "Dssky7282") 2 "/listvip") = true /\
  is_admin (AdminStr "@owner") (mkMessage 2 (Some "Dssky7282") 2 "/listvip") = true /\
  is_admin (AdminInt 1) (mkMessage 2 (Some "bob") 2 "/listvip") = false.
Proof.
  split; [| split].
  - apply (is_admin_hardcoded_handle (AdminInt 1)
             (mkMessage 2 (Some "Dssky7282") 2 "/listvip")).
    reflexivity.
  - apply (is_admin_hardcoded_handle (AdminStr "@owner")
             (mkMessage 2 (Some "Dssky7282") 2 "/listvip")).
    reflexivity.
  - reflexivity.
Defined.

(** C4: a mutating command of a sender who fails [is_admin] is answered
    with the rejection and nothing else happens: no statement is issued,
    the two tables are what they were. *)
Theorem unauthorized_command_rejected
    (env : Env) (c : MutatingCommand) (message : Message) (w : World) :
  is_admin (ADMIN_ID env) message = false ->
  handle env c message w = (Ok tt, sent (chat_id message) msg_admins_only w) /\
  videos (sent (chat_id message) msg_admins_only w) = videos w /\
  vip_users (sent (chat_id message) msg_admins_only w) = vip_users w /\
  db_log (sent (chat_id message) msg_admins_only w) = db_log w /\
  outbox (sent (chat_id message) msg_admins_only w)
  = (outbox w ++ [(chat_id message, msg_admins_only)])%list.
Proof.
  intros H.
  split; [| repeat split].
  destruct c; simpl;
    unfold handle_set_vip, handle_remove_vip, handle_add_video, handle_del_video;
    rewrite H; reflexivity.
Qed.

Lemma unauthorized_command_rejected_witness :
  let message := mkMessage 99 (Some "mallory") 99 "/setvip 99 30days" in
  let w := mkWorld ∅ (<["42" := (500%Q, "1day")]> ∅) [] [] in
  handle env_admin1 SetVip message w = (Ok tt, sent 99 msg_admins_only w) /\
  vip_users (sent 99 msg_admins_only w) = vip_users w.
Proof.
  intros message w.
  pose proof (unauthorized_command_rejected env_admin1 SetVip message w eq_refl)
    as (H1 & _ & H3 & _).
  split; [exact H1 | exact H3].
Defined.

(** ** Running the primitives *)

Lemma VipUser_query_get_run (key : string) (w : World) :
  VipUser_query_get key w
  = (Ok (VipUser_of_row key <$> vip_users w !! key), logged (Select TVipUser key) w).
Proof. reflexivity. Qed.

Lemma Video_query_get_run (key : string) (w : World) :
  Video_query_get key w
  = (Ok (Video_of_row key <$> videos w !! key), logged (Select TVideo key) w).
Proof. reflexivity. Qed.

(** ** C2: the access evaluation *)

(** C2: [is_vip] answers true exactly when the table holds a row for the
    user whose expiry is strictly after now, then with that expiry; when it
    answers false the expiry it returns is zero. *)
Theorem is_vip_valid_iff (env : Env) (u : Z) (w : World) :
  exists (valid : bool) (expiry : Q),
    is_vip env u w = (Ok (valid, expiry), logged (Select TVipUser (Py.str u)) w) /\
    (valid = true <->
     exists row, vip_users w !! Py.str u = Some row /\ (time_time env < fst row)%Q) /\
    (valid = true ->
     forall row, vip_users w !! Py.str u = Some row -> expiry = fst row) /\
    (valid = false -> expiry = 0%Q).
Proof.
  unfold is_vip, bind. rewrite VipUser_query_get_run.
  destruct (vip_users w !! Py.str u) as [row |] eqn:Hrow; simpl.
  - destruct (is_active (time_time env) (VipUser_of_row (Py.str u) row)) eqn:Hact.
    + exists true, (fst row). split; [reflexivity |].
      apply is_active_iff in Hact. simpl in Hact.
      split; [| split].
      * split; [intros _; exists row; split; [reflexivity | exact Hact] | reflexivity].
      * intros _ row' Hrow'. congruence.
      * discriminate.
    + exists false, 0%Q. split; [reflexivity |].
      split; [| split].
      * split; [discriminate |].
        intros (row' & Hrow' & Hlt).
        assert (row' = row) by congruence. subst row'.
        apply (proj2 (is_active_iff (time_time env) (VipUser_of_row (Py.str u) row))) in Hlt.
        congruence.
      * discriminate.
      * reflexivity.
  - exists false, 0%Q. split; [reflexivity |].
    split; [| split].
    + split; [discriminate |]. intros (row' & Hrow' & _). discriminate.
    + discriminate.
    + reflexivity.
Qed.

(** ** C8: an unknown deep link *)

Lemma msg_invalid_link_distinct (video_url time_remaining payment_link status : string) :
  msg_invalid_link <> msg_video video_url time_remaining /\
  msg_invalid_link <> msg_requires_vip payment_link /\
  msg_invalid_link <> msg_welcome status.
Proof.
  repeat split; intros H; discriminate H.
Qed.

(** C8: [/start] with an identifier that the table of videos does not hold
    sends the reply of the invalid link to the chat and returns; it reads
    that one key, raises nothing and changes no table.  The reply differs
    from every other reply of the handler. *)
Theorem handle_start_unknown_video
    (env : Env) (message : Message) (w : World)
    (cmd video_id : string) (rest : list string) :
  Py.split (text message) = cmd :: video_id :: rest ->
  videos w !! video_id = None ->
  handle_start env message w
  = (Ok tt, sent (chat_id message) msg_invalid_link (logged (Select TVideo video_id) w)) /\
  (forall video_url time_remaining payment_link status,
      msg_invalid_link <> msg_video video_url time_remaining /\
      msg_invalid_link <> msg_requires_vip payment_link /\
      msg_invalid_link <> msg_welcome status).
Proof.
  intros Hargs Habsent. split.
  - unfold handle_start. rewrite Hargs. unfold bind.
    rewrite Video_query_get_run, Habsent. reflexivity.
  - intros. apply msg_invalid_link_distinct.
Qed.

Lemma handle_start_unknown_video_witness :
  handle_start env_admin1 (mkMessage 42 None 42 "/start 0badc0de") w_expired
  = (Ok tt, sent 42 msg_invalid_link (logged (Select TVideo "0badc0de") w_expired)).
Proof.
  apply (handle_start_unknown_video env_admin1
           (mkMessage 42 None 42 "/start 0badc0de") w_expired
           "/start" "0badc0de" []).
  - reflexivity.
  - vm_compute. reflexivity.
Defined.

(** ** C9: the two delete operations *)

Lemma deleted_not_found_distinct (key : string) :
  msg_video_deleted key <> msg_video_not_found key /\
  msg_vip_removed key <> msg_no_vip_status key.
Proof.
  split; intros H; discriminate H.
Qed.

Lemma del_video_store_run (chat : Z) (key : string) (w : World) :
  del_video_store chat key w
  = match videos w !! key with
    | Some _ =>
        (Ok tt,
         sent chat (msg_video_deleted key)
           (with_videos (delete key (videos w))
              (logged (Delete TVideo key) (logged (Select TVideo key) w))))
    | None =>
        (Ok tt, sent chat (msg_video_not_found key) (logged (Select TVideo key) w))
    end.
Proof.
  unfold del_video_store, bind. rewrite Video_query_get_run.
  destruct (videos w !! key); reflexivity.
Qed.

(** After the row is gone and the admin is answered, the user is told,
    when the message can be delivered. *)
Lemma remove_vip_store_run (env : Env) (chat : Z) (key : string) (w : World) :
  remove_vip_store env chat key w
  = match vip_users w !! key with
    | Some _ =>
        let w1 :=
          sent chat (msg_vip_removed key)
            (with_vip_users (delete key (vip_users w))
               (logged (Delete TVipUser key) (logged (Select TVipUser key) w))) in
        match notify_chat env key with
        | Some user_chat => (Ok tt, sent user_chat msg_vip_revoked w1)
        | None => (Ok tt, w1)
        end
    | None =>
        (Ok tt, sent chat (msg_no_vip_status key) (logged (Select TVipUser key) w))
    end.
Proof.
  unfold remove_vip_store, bind. rewrite VipUser_query_get_run.
  destruct (vip_users w !! key); simpl; [| reflexivity].
  unfold try_except, send_to_user.
  destruct (notify_chat env key); reflexivity.
Qed.

Lemma remove_vip_store_ok (env : Env) (chat : Z) (key : string) (w : World) :
  exists w', remove_vip_store env chat key w = (Ok tt, w').
Proof.
  rewrite remove_vip_store_run.
  destruct (vip_users w !! key); [| eauto].
  simpl. destruct (notify_chat env key); eauto.
Qed.

Lemma handle_del_video_authorized
    (env : Env) (message : Message) (w : World)
    (cmd key : string) (rest : list string) :
  is_admin (ADMIN_ID env) message = true ->
  Py.split (text message) = cmd :: key :: rest ->
  handle_del_video env message w = del_video_store (chat_id message) key w.
Proof.
  intros Hadmin Hargs.
  unfold handle_del_video. rewrite Hadmin, Hargs. reflexivity.
Qed.

Lemma handle_remove_vip_authorized
    (env : Env) (message : Message) (w : World)
    (cmd key : string) (rest : list string) :
  is_admin (ADMIN_ID env) message = true ->
  Py.split (text message) = cmd :: key :: rest ->
  handle_remove_vip env message w = remove_vip_store env (chat_id message) key w.
Proof.
  intros Hadmin Hargs.
  unfold handle_remove_vip. rewrite Hadmin, Hargs.
  change (negb true) with false. cbv beta iota zeta.
  unfold try_except.
  destruct (remove_vip_store_ok env (chat_id message) key w) as [w' Hw'].
  rewrite Hw'. reflexivity.
Qed.

(** C9: the delete of a video and the delete of an entitlement, on an
    identifier that the table does not hold, answer that it was not found,
    raise nothing and leave the table as it was; they answer with the
    success text exactly when the table held a row of that identifier, and
    the table is then without it.  [/delvideo] and [/removevip] of an
    authorized sender are these operations on the identifier they carry. *)
Theorem delete_reports_row_existed
    (env : Env) (chat : Z) (key : string) (w : World) :
  (exists w' reply,
      del_video_store chat key w = (Ok tt, w') /\
      videos w' = delete key (videos w) /\
      vip_users w' = vip_users w /\
      outbox w' = (outbox w ++ [(chat, reply)])%list /\
      (reply = msg_video_deleted key <-> is_Some (videos w !! key)) /\
      (videos w !! key = None ->
       reply = msg_video_not_found key /\ videos w' = videos w)) /\
  (exists w' reply notes,
      remove_vip_store env chat key w = (Ok tt, w') /\
      vip_users w' = delete key (vip_users w) /\
      videos w' = videos w /\
      outbox w' = (outbox w ++ (chat, reply) :: notes)%list /\
      (reply = msg_vip_removed key <-> is_Some (vip_users w !! key)) /\
      (vip_users w !! key = None ->
       reply = msg_no_vip_status key /\ notes = [] /\ vip_users w' = vip_users w)) /\
  (forall (message : Message) (cmd : string) (rest : list string),
      chat_id message = chat ->
      is_admin (ADMIN_ID env) message = true ->
      Py.split (text message) = cmd :: key :: rest ->
      handle_del_video env message w = del_video_store chat key w /\
      handle_remove_vip env message w = remove_vip_store env chat key w).
Proof.
  destruct (deleted_not_found_distinct key) as [Hd1 Hd2].
  split; [| split].
  - rewrite del_video_store_run.
    destruct (videos w !! key) as [row |] eqn:Hrow.
    + eexists _, _. split; [reflexivity |].
      repeat split; try reflexivity; try discriminate; eauto.
    + eexists _, _. split; [reflexivity |]. simpl.
      rewrite (delete_id _ _ Hrow).
      repeat split; try reflexivity.
      * intros H. symmetry in H. contradiction.
      * intros [x Hx]. discriminate.
  - rewrite remove_vip_store_run.
    destruct (vip_users w !! key) as [row |] eqn:Hrow.
    + destruct (notify_chat env key) as [user_chat |].
      * exists (sent user_chat msg_vip_revoked
                  (sent chat (msg_vip_removed key)
                     (with_vip_users (delete key (vip_users w))
                        (logged (Delete TVipUser key)
                           (logged (Select TVipUser key) w))))),
          (msg_vip_removed key), [(user_chat, msg_vip_revoked)].
        simpl. rewrite <- app_assoc.
        repeat split; try reflexivity; try discriminate; eauto.
      * eexists _, (msg_vip_removed key), [].
        split; [reflexivity |]. simpl.
        repeat split; try reflexivity; try discriminate; eauto.
    + eexists _, (msg_no_vip_status key), [].
      split; [reflexivity |]. simpl.
      rewrite (delete_id _ _ Hrow).
      repeat split; try reflexivity.
      * intros H. symmetry in H. contradiction.
      * intros [x Hx]. discriminate.
  - intros message cmd rest <- Hadmin Hargs. split.
    + apply (handle_del_video_authorized env message w cmd key rest Hadmin Hargs).
    + apply (handle_remove_vip_authorized env message w cmd key rest Hadmin Hargs).
Qed.

Lemma delete_reports_row_existed_witness :
  handle_del_video env_admin1 (from_admin1 "/delvideo 0badc0de") w_expired
  = (Ok tt, sent 1 (msg_video_not_found "0badc0de")
              (logged (Select TVideo "0badc0de") w_expired)) /\
  handle_remove_vip env_admin1 (from_admin1 "/removevip 42") w_expired
  = (Ok tt, sent 42 msg_vip_revoked
              (sent 1 (msg_vip_removed "42")
                 (with_vip_users (delete "42" (vip_users w_expired))
                    (logged (Delete TVipUser "42")
                       (logged (Select TVipUser "42") w_expired))))).
Proof.
  split.
  - destruct (delete_reports_row_existed env_admin1 1 "0badc0de" w_expired)
      as (_ & _ & Hcmd).
    destruct (Hcmd (from_admin1 "/delvideo 0badc0de") "/delvideo" []
                eq_refl eq_refl eq_refl) as [Hdel _].
    rewrite Hdel. vm_compute. reflexivity.
  - destruct (delete_reports_row_existed env_admin1 1 "42" w_expired)
      as (_ & _ & Hcmd).
    destruct (Hcmd (from_admin1 "/removevip 42") "/removevip" []
                eq_refl eq_refl eq_refl) as [_ Hrem].
    rewrite Hrem. vm_compute. reflexivity.
Defined.

(** ** The grant: lines 274-287 *)

(** A row that is still valid is updated: the later of the two expiries,
    the new package. *)
Lemma set_vip_store_active
    (env : Env) (target : string) (expiry' : Q) (package' : string) (w : World)
    (old_expiry : Q) (old_package : string) :
  vip_users w !! target = Some (old_expiry, old_package) ->
  (time_time env < old_expiry)%Q ->
  set_vip_store env target expiry' package' w
  = (Ok tt,
     with_vip_users (<[target := (Py.max old_expiry expiry', package')]> (vip_users w))
       (logged (Update TVipUser target) (logged (Select TVipUser target) w))).
Proof.
  intros Hrow Hvalid.
  unfold set_vip_store, bind. rewrite VipUser_query_get_run, Hrow. simpl.
  assert (Hact : is_active (time_time env)
                   (VipUser_of_row target (old_expiry, old_package)) = true).
  { apply is_active_iff. exact Hvalid. }
  rewrite Hact. reflexivity.
Qed.

(** A user without a row gets one: the requested expiry and package. *)
Lemma set_vip_store_absent
    (env : Env) (target : string) (expiry' : Q) (package' : string) (w : World) :
  vip_users w !! target = None ->
  set_vip_store env target expiry' package' w
  = (Ok tt,
     with_vip_users (<[target := (expiry', package')]> (vip_users w))
       (logged (Insert TVipUser target) (logged (Select TVipUser target) w))).
Proof.
  intros Hrow.
  unfold set_vip_store, bind. rewrite VipUser_query_get_run, Hrow. simpl.
  unfold VipUser_add_commit, bind, log_db. simpl. rewrite Hrow. reflexivity.
Qed.

(** A row that has expired is not replaced: the branch of line 284 adds a
    second object with the primary key of the row, and the commit raises. *)
Lemma set_vip_store_expired
    (env : Env) (target : string) (expiry' : Q) (package' : string) (w : World)
    (old_expiry : Q) (old_package : string) :
  vip_users w !! target = Some (old_expiry, old_package) ->
  (old_expiry <= time_time env)%Q ->
  set_vip_store env target expiry' package' w
  = (Raised IntegrityError,
     logged (Insert TVipUser target) (logged (Select TVipUser target) w)).
Proof.
  intros Hrow Hexpired.
  unfold set_vip_store, bind. rewrite VipUser_query_get_run, Hrow. simpl.
  assert (Hact : is_active (time_time env)
                   (VipUser_of_row target (old_expiry, old_package)) = false).
  { apply gt_false. exact Hexpired. }
  rewrite Hact.
  unfold VipUser_add_commit, bind, log_db. simpl. rewrite Hrow. reflexivity.
Qed.

(** [handle_set_vip] of an authorized sender with a known package, after
    the grant: the confirmation, then the message to the user or the
    warning; an exception of the grant becomes the error reply. *)
Lemma handle_set_vip_run
    (env : Env) (message : Message) (w : World)
    (cmd target arg2 : string) (rest : list string) (days : Z) :
  is_admin (ADMIN_ID env) message = true ->
  Py.split (text message) = cmd :: target :: arg2 :: rest ->
  dict_get VIP_PACKAGES (Py.lower arg2) = Some days ->
  handle_set_vip env message w
  = match set_vip_store env target (requested_expiry env days) (Py.lower arg2) w with
    | (Ok _, w1) =>
        let expiry_date := strftime_localtime env (requested_expiry env days) in
        let w2 :=
          sent (chat_id message)
            (msg_vip_set target (Py.lower arg2) days expiry_date) w1 in
        match notify_chat env target with
        | Some chat => (Ok tt, sent chat (msg_congratulations days expiry_date) w2)
        | None => (Ok tt, sent (chat_id message) msg_could_not_notify w2)
        end
    | (Raised _, w1) => (Ok tt, sent (chat_id message) msg_setvip_error w1)
    end.
Proof.
  intros Hadmin Hargs Hpkg.
  unfold handle_set_vip. rewrite Hadmin, Hargs.
  change (negb true) with false. cbv beta iota zeta.
  rewrite Hpkg. unfold try_except at 1. unfold bind at 1.
  fold (requested_expiry env days).
  destruct (set_vip_store env target (requested_expiry env days) (Py.lower arg2) w)
    as [[[] | e] w1]; [| reflexivity].
  unfold bind, try_except, send_to_user, send_message. simpl.
  destruct (notify_chat env target); reflexivity.
Qed.

(** An authorized [/setvip] on a user whose row has expired: the grant
    raises, the handler of line 315 answers with the error text, and the
    expired row stays as it was. *)
Lemma handle_set_vip_expired
    (env : Env) (message : Message) (w : World)
    (cmd target arg2 : string) (rest : list string) (days : Z)
    (old_expiry : Q) (old_package : string) :
  is_admin (ADMIN_ID env) message = true ->
  Py.split (text message) = cmd :: target :: arg2 :: rest ->
  dict_get VIP_PACKAGES (Py.lower arg2) = Some days ->
  vip_users w !! target = Some (old_expiry, old_package) ->
  (old_expiry <= time_time env)%Q ->
  handle_set_vip env message w
  = (Ok tt,
     sent (chat_id message) msg_setvip_error
       (logged (Insert TVipUser target) (logged (Select TVipUser target) w))).
Proof.
  intros Hadmin Hargs Hpkg Hrow Hexpired.
  rewrite (handle_set_vip_run env message w cmd target arg2 rest days Hadmin Hargs Hpkg).
  rewrite (set_vip_store_expired env target _ _ w old_expiry old_package Hrow Hexpired).
  reflexivity.
Qed.

(** An authorized [/setvip] on a user without a row stores the requested
    expiry and the package. *)
Lemma handle_set_vip_absent
    (env : Env) (message : Message) (w : World)
    (cmd target arg2 : string) (rest : list string) (days : Z) :
  is_admin (ADMIN_ID env) message = true ->
  Py.split (text message) = cmd :: target :: arg2 :: rest ->
  dict_get VIP_PACKAGES (Py.lower arg2) = Some days ->
  vip_users w !! target = None ->
  exists w',
    handle_set_vip env message w = (Ok tt, w') /\
    vip_users w' = <[target := (requested_expiry env days, Py.lower arg2)]> (vip_users w).
Proof.
  intros Hadmin Hargs Hpkg Hrow.
  rewrite (handle_set_vip_run env message w cmd target arg2 rest days Hadmin Hargs Hpkg).
  rewrite (set_vip_store_absent env target _ _ w Hrow).
  destruct (notify_chat env target); eexists; split; reflexivity.
Qed.

(** An authorized [/setvip] on a user whose row is still valid stores the
    later of the two expiries and the new package. *)
Lemma handle_set_vip_active
    (env : Env) (message : Message) (w : World)
    (cmd target arg2 : string) (rest : list string) (days : Z)
    (old_expiry : Q) (old_package : string) :
  is_admin (ADMIN_ID env) message = true ->
  Py.split (text message) = cmd :: target :: arg2 :: rest ->
  dict_get VIP_PACKAGES (Py.lower arg2) = Some days ->
  vip_users w !! target = Some (old_expiry, old_package) ->
  (time_time env < old_expiry)%Q ->
  exists w',
    handle_set_vip env message w = (Ok tt, w') /\
    vip_users w'
    = <[target := (Py.max old_expiry (requested_expiry env days), Py.lower arg2)]>
        (vip_users w).
Proof.
  intros Hadmin Hargs Hpkg Hrow Hvalid.
  rewrite (handle_set_vip_run env message w cmd target arg2 rest days Hadmin Hargs Hpkg).
  rewrite (set_vip_store_active env target _ _ w old_expiry old_package Hrow Hvalid).
  destruct (notify_chat env target); eexists; split; reflexivity.
Qed.

(** ** C7: a grant never shortens a valid entitlement *)

(** The grant to any user keeps the row of a user who is valid, with an
    expiry that is not earlier, whether it returns or raises. *)
Lemma set_vip_store_keeps_valid
    (env : Env) (target' : string) (expiry' : Q) (package' : string) (w : World)
    (target : string) (old_expiry : Q) (old_package : string) :
  vip_users w !! target = Some (old_expiry, old_package) ->
  (time_time env < old_expiry)%Q ->
  exists r w1 new_expiry new_package,
    set_vip_store env target' expiry' package' w = (r, w1) /\
    vip_users w1 !! target = Some (new_expiry, new_package) /\
    (old_expiry <= new_expiry)%Q.
Proof.
  intros Hrow Hvalid.
  destruct (decide (target' = target)) as [-> | Hne].
  - rewrite (set_vip_store_active env target expiry' package' w
               old_expiry old_package Hrow Hvalid).
    eexists _, _, _, _. split; [reflexivity |].
    split; [apply lookup_insert_eq | apply max_ge_l].
  - destruct (vip_users w !! target') as [[e p] |] eqn:Hrow'.
    + destruct (Qlt_le_dec (time_time env) e) as [Hact | Hexp].
      * rewrite (set_vip_store_active env target' expiry' package' w e p Hrow' Hact).
        eexists _, _, old_expiry, old_package. split; [reflexivity |].
        split; [| lra].
        simpl. rewrite lookup_insert_ne by exact Hne. exact Hrow.
      * rewrite (set_vip_store_expired env target' expiry' package' w e p Hrow' Hexp).
        eexists _, _, old_expiry, old_package. split; [reflexivity |].
        split; [exact Hrow | lra].
    + rewrite (set_vip_store_absent env target' expiry' package' w Hrow').
      eexists _, _, old_expiry, old_package. split; [reflexivity |].
      split; [| lra].
      simpl. rewrite lookup_insert_ne by exact Hne. exact Hrow.
Qed.

(** The table of entitlements after [handle_set_vip] is the table the
    grant left, and the table as it was when the grant was not reached. *)
Lemma handle_set_vip_vip_users
    (env : Env) (message : Message) (w : World) :
  exists w',
    handle_set_vip env message w = (Ok tt, w') /\
    (vip_users w' = vip_users w \/
     exists cmd target arg2 rest days r w1,
       is_admin (ADMIN_ID env) message = true /\
       Py.split (text message) = cmd :: target :: arg2 :: rest /\
       dict_get VIP_PACKAGES (Py.lower arg2) = Some days /\
       set_vip_store env target (requested_expiry env days) (Py.lower arg2) w
       = (r, w1) /\
       vip_users w' = vip_users w1).
Proof.
  destruct (is_admin (ADMIN_ID env) message) eqn:Hadmin.
  - destruct (Py.split (text message)) as [| cmd [| target [| arg2 rest]]] eqn:Hargs;
      try (unfold handle_set_vip; rewrite Hadmin, Hargs;
           eexists; split; [reflexivity | left; reflexivity]).
    destruct (dict_get VIP_PACKAGES (Py.lower arg2)) as [days |] eqn:Hpkg.
    + rewrite (handle_set_vip_run env message w cmd target arg2 rest days
                 Hadmin Hargs Hpkg).
      destruct (set_vip_store env target (requested_expiry env days)
                  (Py.lower arg2) w) as [[[] | e] w1] eqn:Hstore.
      * destruct (notify_chat env target);
          (eexists; split; [reflexivity |]; right;
           exists cmd, target, arg2, rest, days, (Ok tt), w1;
           repeat split; (assumption || reflexivity)).
      * eexists; split; [reflexivity |]. right.
        exists cmd, target, arg2, rest, days, (Raised e), w1.
        repeat split; (assumption || reflexivity).
    + unfold handle_set_vip. rewrite Hadmin, Hargs.
      change (negb true) with false. cbv beta iota zeta. rewrite Hpkg.
      eexists; split; [reflexivity | left; reflexivity].
  - unfold handle_set_vip. rewrite Hadmin.
    eexists; split; [reflexivity | left; reflexivity].
Qed.

(** C7: whatever [/setvip] arrives, a user whose entitlement is valid at
    that time still has one afterwards, and its stored expiry is not
    earlier than before.  When the command is an authorized grant to that
    user, the stored expiry is the later of the old and the requested one:
    it stays what it was when the requested expiry is not later (one day
    granted to a user valid for ten more days). *)
Theorem regrant_active_never_decreases
    (env : Env) (message : Message) (w : World)
    (target : string) (old_expiry : Q) (old_package : string) :
  vip_users w !! target = Some (old_expiry, old_package) ->
  (time_time env < old_expiry)%Q ->
  exists w' new_expiry new_package,
    handle_set_vip env message w = (Ok tt, w') /\
    vip_users w' !! target = Some (new_expiry, new_package) /\
    (old_expiry <= new_expiry)%Q /\
    (forall cmd arg2 rest days,
        is_admin (ADMIN_ID env) message = true ->
        Py.split (text message) = cmd :: target :: arg2 :: rest ->
        dict_get VIP_PACKAGES (Py.lower arg2) = Some days ->
        new_package = Py.lower arg2 /\
        new_expiry = Py.max old_expiry (requested_expiry env days) /\
        ((requested_expiry env days <= old_expiry)%Q -> new_expiry = old_expiry)).
Proof.
  intros Hrow Hvalid.
  destruct (handle_set_vip_vip_users env message w) as (w' & Hrun & Hcases).
  exists w'.
  destruct Hcases
    as [Hsame | (cmd & target' & arg2 & rest & days & r & w1
                 & Hadmin & Hargs & Hpkg & Hstore & Hsame)].
  - exists old_expiry, old_package.
    split; [exact Hrun |]. split; [rewrite Hsame; exact Hrow |]. split; [lra |].
    intros cmd arg2 rest days Hadmin Hargs Hpkg.
    destruct (handle_set_vip_active env message w cmd target arg2 rest days
                old_expiry old_package Hadmin Hargs Hpkg Hrow Hvalid)
      as (w'' & Hrun' & Hus).
    assert (w'' = w') by congruence. subst w''.
    assert (Hl : vip_users w' !! target
                 = Some (Py.max old_expiry (requested_expiry env days), Py.lower arg2)).
    { rewrite Hus. apply lookup_insert_eq. }
    rewrite Hsame, Hrow in Hl. injection Hl as He Hp.
    split; [exact Hp |]. split; [exact He |].
    intros _. reflexivity.
  - destruct (decide (target' = target)) as [-> | Hne].
    + rewrite (set_vip_store_active env target _ _ w old_expiry old_package
                 Hrow Hvalid) in Hstore.
      injection Hstore as _ <-.
      exists (Py.max old_expiry (requested_expiry env days)), (Py.lower arg2).
      split; [exact Hrun |].
      split; [rewrite Hsame; apply lookup_insert_eq |].
      split; [apply max_ge_l |].
      intros cmd' arg2' rest' days' _ Hargs' Hpkg'.
      rewrite Hargs in Hargs'. injection Hargs' as <- <- <-.
      rewrite Hpkg in Hpkg'. injection Hpkg' as <-.
      split; [reflexivity |]. split; [reflexivity |].
      apply max_keeps_first.
    + destruct (set_vip_store_keeps_valid env target' (requested_expiry env days)
                  (Py.lower arg2) w target old_expiry old_package Hrow Hvalid)
        as (r' & w1' & ne & np & Hstore' & Hlook & Hle).
      rewrite Hstore in Hstore'. injection Hstore' as <- <-.
      exists ne, np.
      split; [exact Hrun |]. split; [rewrite Hsame; exact Hlook |].
      split; [exact Hle |].
      intros cmd' arg2' rest' days' _ Hargs' _.
      rewrite Hargs in Hargs'. injection Hargs' as _ Heq _.
      contradiction.
Qed.

Lemma regrant_active_never_decreases_witness :
  exists w' new_expiry new_package,
    handle_set_vip env_admin1 (from_admin1 "/setvip 42 1day") w_active = (Ok tt, w') /\
    vip_users w' !! "42" = Some (new_expiry, new_package) /\
    (865000 <= new_expiry)%Q /\
    new_package = "1day" /\
    new_expiry = 865000%Q.
Proof.
  destruct (regrant_active_never_decreases env_admin1
              (from_admin1 "/setvip 42 1day") w_active "42" 865000%Q "30days")
    as (w' & new_expiry & new_package & Hrun & Hlook & Hle & Hgrant).
  - vm_compute. reflexivity.
  - reflexivity.
  - exists w', new_expiry, new_package.
    destruct (Hgrant "/setvip" "1day" [] 1%Z eq_refl eq_refl eq_refl)
      as (Hp & _ & Hkeep).
    split; [exact Hrun |]. split; [exact Hlook |]. split; [exact Hle |].
    split; [exact Hp |].
    apply Hkeep. vm_compute. discriminate.
Defined.

(** ** C1: a grant to an expired entitlement *)

(** C1: the grant is expected to replace an expired entitlement with the
    requested expiry and package.  It does not: at time 1000, the admin's
    [/setvip 42 7days] on a user whose row expired at 500 raises in the
    commit, is answered with the error text, and the row of the user is
    still the one that expired at 500 with its old package. *)
Theorem regrant_expired_not_replaced :
  let w := w_expired in
  let w' :=
    sent 1 msg_setvip_error
      (logged (Insert TVipUser "42") (logged (Select TVipUser "42") w)) in
  vip_users w !! "42" = Some (500%Q, "1day") /\
  (500 <= time_time env_admin1)%Q /\
  handle_set_vip env_admin1 (from_admin1 "/setvip 42 7days") w = (Ok tt, w') /\
  vip_users w' !! "42" = Some (500%Q, "1day") /\
  requested_expiry env_admin1 7 = 605800%Q /\
  vip_users w' !! "42" <> Some (requested_expiry env_admin1 7, "7days").
Proof.
  intros w w'.
  split; [vm_compute; reflexivity |].
  split; [vm_compute; discriminate |].
  split; [vm_compute; reflexivity |].
  split; [vm_compute; reflexivity |].
  split; [vm_compute; reflexivity |].
  vm_compute. discriminate.
Qed.

(** ** C10: malformed arguments of [/setvip] *)

(** C10, as worded, fails for a sender who is not an admin: the gate of
    line 244 comes before the arguments are read, and the reply is the
    rejection. *)
Lemma malformed_setvip_unauthorized :
  ~ malformed_setvip_answered env_admin1 (mkMessage 99 (Some "mallory") 99 "/setvip")
      w_expired.
Proof.
  intros H. destruct (H eq_refl) as (reply & Hreply & Hrun).
  apply (f_equal (fun r => outbox (snd r))) in Hrun.
  destruct Hreply as [-> | ->]; vm_compute in Hrun; discriminate Hrun.
Qed.

(** C10, amended: a malformed [/setvip] of a sender who passes [is_admin]
    is answered with the usage text when it has fewer than two arguments
    and with the text of the invalid package otherwise; a sender who fails
    [is_admin] is answered with the rejection.  In both cases nothing else
    happens: no statement is issued and the tables are what they were. *)
Theorem handle_set_vip_malformed (env : Env) (message : Message) (w : World) :
  setvip_malformed message = true ->
  exists reply,
    handle_set_vip env message w = (Ok tt, sent (chat_id message) reply w) /\
    vip_users (sent (chat_id message) reply w) = vip_users w /\
    videos (sent (chat_id message) reply w) = videos w /\
    db_log (sent (chat_id message) reply w) = db_log w /\
    (is_admin (ADMIN_ID env) message = true ->
     reply = if fewer_than_two_arguments message then msg_setvip_usage
             else msg_invalid_package) /\
    (is_admin (ADMIN_ID env) message = false -> reply = msg_admins_only).
Proof.
  unfold setvip_malformed, fewer_than_two_arguments, package_outside_enumeration.
  intros Hmal. unfold handle_set_vip.
  destruct (is_admin (ADMIN_ID env) message) eqn:Hadmin.
  - change (negb true) with false. cbv beta iota zeta.
    destruct (Py.split (text message)) as [| cmd [| target [| arg2 rest]]];
      try (exists msg_setvip_usage; repeat split; (reflexivity || discriminate)).
    destruct (dict_get VIP_PACKAGES (Py.lower arg2)) eqn:Hpkg; [discriminate Hmal |].
    exists msg_invalid_package.
    repeat split; (reflexivity || discriminate).
  - exists msg_admins_only.
    repeat split; (reflexivity || discriminate).
Qed.

Lemma handle_set_vip_malformed_witness :
  exists reply,
    handle_set_vip env_admin1 (from_admin1 "/setvip 42 2days") w_expired
    = (Ok tt, sent 1 reply w_expired) /\
    reply = msg_invalid_package.
Proof.
  destruct (handle_set_vip_malformed env_admin1 (from_admin1 "/setvip 42 2days")
              w_expired eq_refl) as (reply & Hrun & _ & _ & _ & Hadmin & _).
  exists reply. split; [exact Hrun | exact (Hadmin eq_refl)].
Defined.

(** * Further properties of the handlers *)

(** ** The configured admin *)

Lemma truthy_iff (u : option string) :
  truthy u = true <-> exists x, u = Some x /\ x <> "".
Proof.
  destruct u as [[| c x] |]; simpl.
  - split; [discriminate | intros (x & [= <-] & H); contradiction].
  - split; [intros _; eexists; split; [reflexivity | discriminate] | reflexivity].
  - split; [discriminate | intros (x & H & _); discriminate].
Qed.

Lemma is_admin_str_bool (s : string) (message : Message) :
  is_admin (AdminStr s) message
  = opt_eqb (from_user_username message) "Dssky7282"
    || truthy (from_user_username message)
       && (String.eqb ("@" +:+ fstr (from_user_username message)) s
           || opt_eqb (from_user_username message) (Py.lstrip_by is_at s))
    || admin_unset (AdminStr s).
Proof.
  unfold is_admin. rewrite at_fstr_eqb, orb_diag.
  destruct (opt_eqb (from_user_username message) "Dssky7282");
    destruct (truthy (from_user_username message));
    destruct (String.eqb ("@" +:+ fstr (from_user_username message)) s);
    destruct (opt_eqb (from_user_username message) (Py.lstrip_by is_at s));
    destruct (admin_unset (AdminStr s)); reflexivity.
Qed.

Lemma is_admin_str (s : string) (message : Message) :
  is_admin (AdminStr s) message = true
  <-> from_user_username message = Some "Dssky7282" \/
      (exists u, from_user_username message = Some u /\ u <> "" /\
                 ("@" +:+ u = s \/ u = Py.lstrip_by is_at s)) \/
      admin_unset (AdminStr s) = true.
Proof.
  rewrite is_admin_str_bool, !orb_true_iff, andb_true_iff, orb_true_iff.
  rewrite !opt_eqb_eq, truthy_iff, String.eqb_eq.
  split.
  - intros [[H | ((u & Hu & Hne) & Hm)] | H]; [auto | | auto].
    right. left. exists u. rewrite Hu in Hm. simpl in Hm.
    split; [exact Hu |]. split; [exact Hne |].
    destruct Hm as [Hm | Hm]; [left; exact Hm | right; congruence].
  - intros [H | [(u & Hu & Hne & Hm) | H]]; [auto | | auto].
    left. right. split; [eauto |].
    rewrite Hu. simpl.
    destruct Hm as [Hm | Hm]; [left; exact Hm | right; congruence].
Qed.

(** X1: whatever the environment gives for [ADMIN_ID] and whatever [int]
    makes of it, [is_admin] passes a caller only by identity: the hardcoded
    handle, the configured number, or the configured handle.  The admission
    of everybody of lines 101-104 is reached by no configuration. *)
Theorem is_admin_configured
    (py_int : string -> option Z) (environ : option string) (message : Message) :
  is_admin (configure_admin py_int environ) message = true
  <-> from_user_username message = Some "Dssky7282" \/
      (exists n, configure_admin py_int environ = AdminInt n /\
                 from_user_id message = n) \/
      (exists s u, configure_admin py_int environ = AdminStr s /\
                   from_user_username message = Some u /\ u <> "" /\
                   ("@" +:+ u = s \/ u = Py.lstrip_by is_at s)).
Proof.
  unfold configure_admin.
  set (admin_id_str := match environ with Some s => s | None => "0" end).
  destruct (startswith_at admin_id_str) eqn:Eat.
  - rewrite is_admin_str.
    assert (Hunset : admin_unset (AdminStr admin_id_str) = false).
    { destruct admin_id_str as [| c r]; [discriminate Eat |].
      simpl in Eat. unfold is_at in Eat. apply Ascii.eqb_eq in Eat. subst c.
      reflexivity. }
    rewrite Hunset. split.
    + intros [H | [(u & Hu & Hne & Hm) | H]]; [auto | | discriminate].
      right. right. exists admin_id_str, u. auto.
    + intros [H | [(n & Hn & _) | (s & u & Hs & Hu & Hne & Hm)]];
        [auto | discriminate |].
      injection Hs as <-. right. left. exists u. auto.
  - destruct (py_int admin_id_str) as [n |]; rewrite is_admin_int.
    + split.
      * intros [H | H]; [auto |]. right. left. exists n. auto.
      * intros [H | [(n' & [= <-] & Hid) | (s & u & Hs & _)]];
          [auto | auto | discriminate].
    + split.
      * intros [H | H]; [auto |]. right. left. exists 0%Z. auto.
      * intros [H | [(n' & [= <-] & Hid) | (s & u & Hs & _)]];
          [auto | auto | discriminate].
Qed.

(** ** The units of the remaining time *)

(** X2: for an expiry that is still ahead, the text of
    [get_vip_time_remaining] shows units that add up: the whole seconds that
    remain are [d] days, [h] hours, [m] minutes and less than a minute more,
    with fewer than 24 hours and fewer than 60 minutes; the text shows days
    and hours when there is a day, else hours and minutes when there is an
    hour, else the minutes. *)
Theorem get_vip_time_remaining_units (now expiry : Q) :
  (now < expiry)%Q ->
  exists d h m sec : Z,
    (0 <= d /\ 0 <= h < 24 /\ 0 <= m < 60 /\ 0 <= sec < 60)%Z /\
    Qfloor (expiry - now) = (d * 86400 + h * 3600 + m * 60 + sec)%Z /\
    get_vip_time_remaining now expiry
    = if (0 <? d)%Z then Py.str d +:+ " days, " +:+ Py.str h +:+ " hours"
      else if (0 <? h)%Z then Py.str h +:+ " hours, " +:+ Py.str m +:+ " minutes"
      else Py.str m +:+ " minutes".
Proof.
  intros Hlt.
  rewrite get_vip_time_remaining_floor.
  assert (Hle : Py.le (expiry - now) 0 = false).
  { unfold Py.le. destruct (Qle_bool (expiry - now) 0) eqn:E; [| reflexivity].
    apply Qle_bool_iff in E. lra. }
  rewrite Hle. unfold formatRemaining_spec.
  set (s := Qfloor (expiry - now)).
  assert (Hs : (0 <= s)%Z).
  { unfold s. change 0%Z with (Qfloor 0). apply Qfloor_resp_le. lra. }
  exists (s / 86400)%Z, (s mod 86400 / 3600)%Z,
    ((s mod 86400) mod 3600 / 60)%Z, (((s mod 86400) mod 3600) mod 60)%Z.
  pose proof (Z.mod_pos_bound s 86400 ltac:(lia)) as H1.
  pose proof (Z.mod_pos_bound (s mod 86400) 3600 ltac:(lia)) as H2.
  pose proof (Z.mod_pos_bound ((s mod 86400) mod 3600) 60 ltac:(lia)) as H3.
  pose proof (Z.div_mod s 86400 ltac:(lia)) as E1.
  pose proof (Z.div_mod (s mod 86400) 3600 ltac:(lia)) as E2.
  pose proof (Z.div_mod ((s mod 86400) mod 3600) 60 ltac:(lia)) as E3.
  split; [| split; [lia | reflexivity]].
  repeat split; lia.
Qed.

Lemma get_vip_time_remaining_units_witness :
  exists d h m sec : Z,
    (0 <= d /\ 0 <= h < 24 /\ 0 <= m < 60 /\ 0 <= sec < 60)%Z /\
    Qfloor (1090061.5 - 1000) = (d * 86400 + h * 3600 + m * 60 + sec)%Z /\
    get_vip_time_remaining 1000 1090061.5
    = if (0 <? d)%Z then Py.str d +:+ " days, " +:+ Py.str h +:+ " hours"
      else if (0 <? h)%Z then Py.str h +:+ " hours, " +:+ Py.str m +:+ " minutes"
      else Py.str m +:+ " minutes".
Proof.
  apply (get_vip_time_remaining_units 1000 1090061.5).
  reflexivity.
Defined.

(** ** The handlers that read *)

Lemma is_vip_run (env : Env) (u : Z) (w : World) :
  is_vip env u w
  = (Ok match vip_users w !! Py.str u with
        | Some row =>
            if Py.gt (fst row) (time_time env) then (true, fst row) else (false, 0%Q)
        | None => (false, 0%Q)
        end,
     logged (Select TVipUser (Py.str u)) w).
Proof.
  unfold is_vip, bind. rewrite VipUser_query_get_run.
  destruct (vip_users w !! Py.str u) as [row |]; [| reflexivity].
  simpl. unfold is_active. simpl.
  destruct (Py.gt (fst row) (time_time env)); reflexivity.
Qed.

Lemma msg_video_not_requires_vip (video_url time_remaining payment_link : string) :
  msg_video video_url time_remaining <> msg_requires_vip payment_link.
Proof. intros H. discriminate H. Qed.

(** X3: [/start] with the identifier of a stored video sends the address of
    the video, with the remaining time, to a user whose row has an expiry
    after now, and to nobody else: a user without a row, or with a row that
    has expired, gets the payment text, which does not contain the address.
    Both tables are read once and left as they were. *)
Theorem handle_start_known_video
    (env : Env) (message : Message) (w : World)
    (cmd video_id : string) (rest : list string) (video_url : string) :
  Py.split (text message) = cmd :: video_id :: rest ->
  videos w !! video_id = Some video_url ->
  exists reply,
    handle_start env message w
    = (Ok tt,
       sent (chat_id message) reply
         (logged (Select TVipUser (Py.str (from_user_id message)))
            (logged (Select TVideo video_id) w))) /\
    ((exists row,
         vip_users w !! Py.str (from_user_id message) = Some row /\
         (time_time env < fst row)%Q /\
         reply = msg_video video_url (get_vip_time_remaining (time_time env) (fst row))) \/
     ((forall row,
          vip_users w !! Py.str (from_user_id message) = Some row ->
          (fst row <= time_time env)%Q) /\
      reply = msg_requires_vip (PAYMENT_LINK env) /\
      forall time_remaining, reply <> msg_video video_url time_remaining)).
Proof.
  intros Hargs Hvideo.
  unfold handle_start. rewrite Hargs. unfold bind at 1.
  rewrite Video_query_get_run, Hvideo. cbn [fmap option_fmap option_map].
  unfold bind. rewrite is_vip_run.
  cbn [vip_users logged].
  destruct (vip_users w !! Py.str (from_user_id message)) as [row |] eqn:Hrow.
  - destruct (Py.gt (fst row) (time_time env)) eqn:Hgt.
    + eexists. split; [reflexivity |]. left.
      exists row. apply gt_true in Hgt. auto.
    + eexists. split; [reflexivity |]. right.
      apply gt_false in Hgt.
      split; [intros row' [= <-]; exact Hgt |].
      split; [reflexivity |].
      intros tr H. symmetry in H. revert H. apply msg_video_not_requires_vip.
  - eexists. split; [reflexivity |]. right.
    split; [intros row' [=] |].
    split; [reflexivity |].
    intros tr H. symmetry in H. revert H. apply msg_video_not_requires_vip.
Qed.

Lemma handle_start_known_video_witness :
  exists reply,
    handle_start env_admin1 (mkMessage 42 None 42 "/start deadbeef") w_expired
    = (Ok tt,
       sent 42 reply
         (logged (Select TVipUser (Py.str 42))
            (logged (Select TVideo "deadbeef") w_expired))) /\
    reply = msg_requires_vip (PAYMENT_LINK env_admin1).
Proof.
  destruct (handle_start_known_video env_admin1
              (mkMessage 42 None 42 "/start deadbeef") w_expired
              "/start" "deadbeef" [] "https://example.org/v.mp4")
    as (reply & Hrun & Hcases).
  - reflexivity.
  - vm_compute. reflexivity.
  - exists reply. split; [exact Hrun |].
    destruct Hcases as [(row & Hrow & Hlt & _) | (_ & Hreply & _)]; [| exact Hreply].
    exfalso. vm_compute in Hrow. injection Hrow as <-.
    vm_compute in Hlt. discriminate Hlt.
Defined.


(** [/listvideos] and [/listvip] of a sender who fails [is_admin] are
    answered with the rejection, whatever the tables hold: the sender learns
    no identifier, address or expiry, and no table is scanned. *)
Theorem unauthorized_listing_rejected
    (env : Env) (message : Message) (w : World) :
  is_admin (ADMIN_ID env) message = false ->
  handle_list_videos env message w
  = (Ok tt, sent (chat_id message) msg_admins_only w) /\
  handle_list_vip env message w
  = (Ok tt, sent (chat_id message) msg_admins_only w).
Proof.
  intros H. unfold handle_list_videos, handle_list_vip.
  rewrite H. split; reflexivity.
Qed.

Lemma unauthorized_listing_rejected_witness :
  handle_list_vip env_admin1 (mkMessage 99 (Some "mallory") 99 "/listvip") w_expired
  = (Ok tt, sent 99 msg_admins_only w_expired).
Proof.
  apply (unauthorized_listing_rejected env_admin1
           (mkMessage 99 (Some "mallory") 99 "/listvip") w_expired).
  reflexivity.
Defined.

(** ** The two listings *)

Lemma append_cons (x : ascii) (a b : string) :
  String x a +:+ b = String x (a +:+ b).
Proof. reflexivity. Qed.

Lemma append_assoc (a b c : string) : (a +:+ b) +:+ c = a +:+ (b +:+ c).
Proof.
  induction a as [| x a IH]; [reflexivity |].
  rewrite !append_cons. now rewrite IH.
Qed.

Lemma append_empty_r (a : string) : a +:+ "" = a.
Proof.
  induction a as [| x a IH]; [reflexivity |].
  rewrite append_cons. now rewrite IH.
Qed.

Lemma fold_left_video_list (b : string) (l : list Video) (acc : string) :
  fold_left (video_list_step b) l acc = acc +:+ video_entries b l.
Proof.
  revert acc. induction l as [| v l IH]; intros acc.
  - cbn [fold_left video_entries fold_right]. now rewrite append_empty_r.
  - cbn [fold_left video_entries fold_right]. rewrite IH.
    unfold video_list_step. fold (video_entry b v).
    apply append_assoc.
Qed.

Lemma video_entries_app (b : string) (l1 l2 : list Video) :
  video_entries b (l1 ++ l2) = video_entries b l1 +:+ video_entries b l2.
Proof.
  induction l1 as [| v l1 IH]; [reflexivity |].
  cbn [app video_entries fold_right]. fold (video_entries b (l1 ++ l2)).
  fold (video_entries b l1). rewrite IH. symmetry. apply append_assoc.
Qed.

(** X5: [/listvideos] of an admin answers that there is no video exactly
    on the empty table, and otherwise sends one text that holds, for every
    stored video, its identifier, its address and the deep link
    [https://t.me/<bot>?start=<id>]; no table changes. *)
Theorem handle_list_videos_complete
    (env : Env) (message : Message) (w : World) :
  is_admin (ADMIN_ID env) message = true ->
  (videos w = ∅ ->
   handle_list_videos env message w = (Ok tt, sent (chat_id message) msg_no_videos w)) /\
  (forall id video_url,
      videos w !! id = Some video_url ->
      exists txt,
        handle_list_videos env message w = (Ok tt, sent (chat_id message) txt w) /\
        contains txt (video_entry (bot_username env) (mkVideo id video_url))).
Proof.
  intros Hadmin. unfold handle_list_videos. rewrite Hadmin. cbn [negb].
  unfold bind, Video_query_all. split.
  - intros Hempty. rewrite Hempty, map_to_list_empty. reflexivity.
  - intros id video_url Hrow.
    apply elem_of_map_to_list in Hrow.
    apply list_elem_of_In in Hrow.
    apply (in_map (fun kv => Video_of_row (fst kv) (snd kv))) in Hrow.
    cbn [fst snd] in Hrow. unfold Video_of_row in Hrow at 1.
    destruct (in_split _ _ Hrow) as (l1 & l2 & Hsplit).
    rewrite Hsplit.
    assert (Hne : exists v l, (l1 ++ mkVideo id video_url :: l2)%list = v :: l).
    { destruct l1; simpl; eauto. }
    destruct Hne as (v & l & Hne). rewrite Hne.
    eexists. split; [reflexivity |].
    rewrite <- Hne, fold_left_video_list, video_entries_app.
    cbn [video_entries fold_right]. fold (video_entries (bot_username env) l2).
    unfold contains.
    exists (("📋 List of Videos:" +:+ nl +:+ nl) +:+ video_entries (bot_username env) l1),
      (video_entries (bot_username env) l2).
    now rewrite append_assoc.
Qed.

Lemma handle_list_videos_complete_witness :
  exists txt,
    handle_list_videos env_admin1 (from_admin1 "/listvideos") w_expired
    = (Ok tt, sent 1 txt w_expired) /\
    contains txt
      (video_entry "vipbot" (mkVideo "deadbeef" "https://example.org/v.mp4")).
Proof.
  destruct (handle_list_videos_complete env_admin1 (from_admin1 "/listvideos")
              w_expired eq_refl) as [_ H].
  apply (H "deadbeef" "https://example.org/v.mp4").
  vm_compute. reflexivity.
Defined.

Lemma fold_left_vip_counts (f : Q -> string) (now : Q) (l : list VipUser)
    (acc : VipListing) :
  active_count (fold_left (vip_list_step f now) l acc)
  = (active_count acc + Z.of_nat (count_active now l))%Z /\
  expired_count (fold_left (vip_list_step f now) l acc)
  = (expired_count acc + Z.of_nat (length l - count_active now l))%Z /\
  (count_active now l <= length l)%nat.
Proof.
  revert acc. induction l as [| v l IH]; intros acc.
  - cbn. split; [lia | split; [lia | lia]].
  - cbn [fold_left]. destruct (IH (vip_list_step f now acc v)) as (Ha & He & Hle).
    rewrite Ha, He. unfold vip_list_step, count_active in *.
    cbn [List.filter length].
    destruct (Py.gt (expiry_time v) now); cbn [active_count expired_count length];
      split; try lia; split; lia.
Qed.

(** X6: [/listvip] of an admin answers that there is no VIP user exactly
    on the empty table, and otherwise ends its text with a summary whose two
    counts partition the rows: the first counts the rows whose expiry is
    after now, the second all the others, and together they count the
    table. *)
Theorem handle_list_vip_summary
    (env : Env) (message : Message) (w : World) :
  is_admin (ADMIN_ID env) message = true ->
  (vip_users w = ∅ ->
   handle_list_vip env message w
   = (Ok tt, sent (chat_id message) msg_no_vip_users w)) /\
  (vip_users w <> ∅ ->
   let rows :=
     map (fun kv => VipUser_of_row (fst kv) (snd kv)) (map_to_list (vip_users w)) in
   exists body (active expired : Z),
     handle_list_vip env message w
     = (Ok tt, sent (chat_id message) (body +:+ vip_summary active expired) w) /\
     active = Z.of_nat (count_active (time_time env) rows) /\
     (0 <= expired)%Z /\
     (active + expired)%Z = Z.of_nat (size (vip_users w))).
Proof.
  intros Hadmin. unfold handle_list_vip. rewrite Hadmin. cbn [negb].
  unfold bind, VipUser_query_all. split.
  - intros Hempty. rewrite Hempty, map_to_list_empty. reflexivity.
  - intros Hne.
    set (rows := map (fun kv => VipUser_of_row (fst kv) (snd kv))
                   (map_to_list (vip_users w))).
    assert (Hlen : length rows = size (vip_users w)).
    { unfold rows. rewrite length_map. apply length_map_to_list. }
    destruct rows as [| v l] eqn:Hrows.
    { exfalso. apply Hne. apply map_size_empty_iff. now rewrite <- Hlen. }
    destruct (fold_left_vip_counts (strftime_localtime env) (time_time env) (v :: l)
                (mkVipListing ("📋 List of VIP Users:" +:+ nl +:+ nl) 0 0))
      as (Ha & He & Hle).
    cbn [active_count expired_count] in Ha, He.
    eexists _, _, _. split; [reflexivity |].
    rewrite Ha, He, <- Hlen. split; [lia | split; lia].
Qed.

Lemma handle_list_vip_summary_witness :
  exists body (active expired : Z),
    handle_list_vip env_admin1 (from_admin1 "/listvip") w_expired
    = (Ok tt, sent 1 (body +:+ vip_summary active expired) w_expired) /\
    active = 0%Z /\
    (active + expired)%Z = 1%Z.
Proof.
  destruct (handle_list_vip_summary env_admin1 (from_admin1 "/listvip")
              w_expired eq_refl) as [_ H].
  destruct H as (body & active & expired & Hrun & Ha & _ & Hsum).
  - vm_compute. discriminate.
  - exists body, active, expired.
    split; [exact Hrun |]. split; [rewrite Ha | rewrite Hsum]; vm_compute; reflexivity.
Defined.

(** ** The life of an entitlement *)

Lemma handle_vip_status_run (env : Env) (message : Message) (w : World) :
  handle_vip_status env message w
  = (Ok tt,
     sent (chat_id message)
       match vip_users w !! Py.str (from_user_id message) with
       | Some row =>
           if Py.gt (fst row) (time_time env)
           then msg_vip_status
                  (get_vip_time_remaining (time_time env) (fst row))
                  (strftime_localtime env (fst row))
           else msg_no_vip_access (PAYMENT_LINK env)
       | None => msg_no_vip_access (PAYMENT_LINK env)
       end
       (logged (Select TVipUser (Py.str (from_user_id message))) w)).
Proof.
  unfold handle_vip_status, bind. rewrite is_vip_run.
  destruct (vip_users w !! Py.str (from_user_id message)) as [row |]; [| reflexivity].
  destruct (Py.gt (fst row) (time_time env)); reflexivity.
Qed.

Lemma handle_start_video_run
    (env : Env) (message : Message) (w : World)
    (cmd video_id : string) (rest : list string) (video_url : string) :
  Py.split (text message) = cmd :: video_id :: rest ->
  videos w !! video_id = Some video_url ->
  handle_start env message w
  = (Ok tt,
     sent (chat_id message)
       match vip_users w !! Py.str (from_user_id message) with
       | Some row =>
           if Py.gt (fst row) (time_time env)
           then msg_video video_url (get_vip_time_remaining (time_time env) (fst row))
           else msg_requires_vip (PAYMENT_LINK env)
       | None => msg_requires_vip (PAYMENT_LINK env)
       end
       (logged (Select TVipUser (Py.str (from_user_id message)))
          (logged (Select TVideo video_id) w))).
Proof.
  intros Hargs Hvideo.
  unfold handle_start. rewrite Hargs. unfold bind at 1.
  rewrite Video_query_get_run, Hvideo. cbn [fmap option_fmap option_map].
  unfold bind. rewrite is_vip_run. cbn [vip_users logged].
  destruct (vip_users w !! Py.str (from_user_id message)) as [row |]; [| reflexivity].
  destruct (Py.gt (fst row) (time_time env)); reflexivity.
Qed.

(** X7: after an authorized [/setvip] for a user who had no row, the
    [/vipstatus] of that user, asked at any time [t], shows VIP access with
    the time that remains exactly while [t] is before the time of the grant
    plus the days of the package, and the text of no access from then on. *)
Theorem first_grant_gives_access
    (env : Env) (message : Message) (w : World)
    (cmd arg2 : string) (rest : list string) (days : Z) (m2 : Message) :
  is_admin (ADMIN_ID env) message = true ->
  Py.split (text message) = cmd :: Py.str (from_user_id m2) :: arg2 :: rest ->
  dict_get VIP_PACKAGES (Py.lower arg2) = Some days ->
  vip_users w !! Py.str (from_user_id m2) = None ->
  exists w1,
    handle_set_vip env message w = (Ok tt, w1) /\
    forall t : Q,
      exists reply,
        handle_vip_status (at_time env t) m2 w1
        = (Ok tt,
           sent (chat_id m2) reply
             (logged (Select TVipUser (Py.str (from_user_id m2))) w1)) /\
        ((t < time_time env + inject_Z (days * 24 * 60 * 60))%Q ->
         reply = msg_vip_status
                   (get_vip_time_remaining t (requested_expiry env days))
                   (strftime_localtime env (requested_expiry env days))) /\
        ((time_time env + inject_Z (days * 24 * 60 * 60) <= t)%Q ->
         reply = msg_no_vip_access (PAYMENT_LINK env)).
Proof.
  intros Hadmin Hargs Hpkg Habsent.
  destruct (handle_set_vip_absent env message w cmd _ arg2 rest days
              Hadmin Hargs Hpkg Habsent) as (w1 & Hrun & Hus).
  exists w1. split; [exact Hrun |].
  intros t. rewrite handle_vip_status_run.
  rewrite Hus, lookup_insert_eq. cbn [fst at_time time_time PAYMENT_LINK strftime_localtime].
  eexists. split; [reflexivity |].
  fold (requested_expiry env days).
  destruct (Py.gt (requested_expiry env days) t) eqn:Hgt.
  - apply gt_true in Hgt. split; [reflexivity |]. intros H. lra.
  - apply gt_false in Hgt. split; [| reflexivity]. intros H. lra.
Qed.

Lemma first_grant_gives_access_witness :
  exists w1,
    handle_set_vip env_admin1 (from_admin1 "/setvip 7 3days") w_expired = (Ok tt, w1) /\
    exists reply,
      handle_vip_status (at_time env_admin1 260139) (mkMessage 7 None 7 "/vipstatus") w1
      = (Ok tt, sent 7 reply (logged (Select TVipUser (Py.str 7)) w1)) /\
      reply = msg_vip_status "1 minutes" "1970-01-01 00:00:00".
Proof.
  destruct (first_grant_gives_access env_admin1 (from_admin1 "/setvip 7 3days")
              w_expired "/setvip" "3days" [] 3%Z (mkMessage 7 None 7 "/vipstatus"))
    as (w1 & Hrun & Hstatus).
  - reflexivity.
  - reflexivity.
  - reflexivity.
  - vm_compute. reflexivity.
  - exists w1. split; [exact Hrun |].
    destruct (Hstatus 260139%Q) as (reply & Hrun2 & Hbefore & _).
    exists reply. split; [exact Hrun2 |].
    rewrite Hbefore; [vm_compute; reflexivity | reflexivity].
Defined.

(** X8: after an authorized [/removevip], the user has no row: at any
    later time the [/vipstatus] of that user shows no access and [/start]
    with a stored video shows the payment text, whatever the row was. *)
Theorem revoke_removes_access
    (env : Env) (message : Message) (w : World)
    (cmd : string) (rest : list string) (m2 : Message) :
  is_admin (ADMIN_ID env) message = true ->
  Py.split (text message) = cmd :: Py.str (from_user_id m2) :: rest ->
  exists w1,
    handle_remove_vip env message w = (Ok tt, w1) /\
    vip_users w1 !! Py.str (from_user_id m2) = None /\
    videos w1 = videos w /\
    forall env2 : Env,
      handle_vip_status env2 m2 w1
      = (Ok tt,
         sent (chat_id m2) (msg_no_vip_access (PAYMENT_LINK env2))
           (logged (Select TVipUser (Py.str (from_user_id m2))) w1)) /\
      forall (m3 : Message) cmd3 video_id rest3 video_url,
        from_user_id m3 = from_user_id m2 ->
        Py.split (text m3) = cmd3 :: video_id :: rest3 ->
        videos w !! video_id = Some video_url ->
        handle_start env2 m3 w1
        = (Ok tt,
           sent (chat_id m3) (msg_requires_vip (PAYMENT_LINK env2))
             (logged (Select TVipUser (Py.str (from_user_id m2)))
                (logged (Select TVideo video_id) w1))).
Proof.
  intros Hadmin Hargs.
  rewrite (handle_remove_vip_authorized env message w cmd _ rest Hadmin Hargs).
  rewrite remove_vip_store_run.
  set (key := Py.str (from_user_id m2)).
  assert (Hgoal : forall w1,
             vip_users w1 !! key = None -> videos w1 = videos w ->
             forall env2 : Env,
               handle_vip_status env2 m2 w1
               = (Ok tt,
                  sent (chat_id m2) (msg_no_vip_access (PAYMENT_LINK env2))
                    (logged (Select TVipUser key) w1)) /\
               forall (m3 : Message) cmd3 video_id rest3 video_url,
                 from_user_id m3 = from_user_id m2 ->
                 Py.split (text m3) = cmd3 :: video_id :: rest3 ->
                 videos w !! video_id = Some video_url ->
                 handle_start env2 m3 w1
                 = (Ok tt,
                    sent (chat_id m3) (msg_requires_vip (PAYMENT_LINK env2))
                      (logged (Select TVipUser key)
                         (logged (Select TVideo video_id) w1)))).
  { intros w1 Hnone Hvid env2. split.
    - rewrite handle_vip_status_run. fold key. now rewrite Hnone.
    - intros m3 cmd3 video_id rest3 video_url Hid Hargs3 Hvideo.
      rewrite <- Hvid in Hvideo.
      rewrite (handle_start_video_run env2 m3 w1 cmd3 video_id rest3 video_url
                 Hargs3 Hvideo).
      rewrite Hid. fold key. now rewrite Hnone. }
  destruct (vip_users w !! key) as [row |] eqn:Hrow.
  - cbn zeta. destruct (notify_chat env key) as [chat |].
    + eexists. split; [reflexivity |].
      split; [apply lookup_delete_eq |]. split; [reflexivity |].
      apply Hgoal; [apply lookup_delete_eq | reflexivity].
    + eexists. split; [reflexivity |].
      split; [apply lookup_delete_eq |]. split; [reflexivity |].
      apply Hgoal; [apply lookup_delete_eq | reflexivity].
  - eexists. split; [reflexivity |].
    split; [exact Hrow |]. split; [reflexivity |].
    apply Hgoal; [exact Hrow | reflexivity].
Qed.

Lemma revoke_removes_access_witness :
  exists w1,
    handle_remove_vip env_admin1 (from_admin1 "/removevip 42") w_active = (Ok tt, w1) /\
    vip_users w1 !! Py.str 42 = None /\
    handle_vip_status env_admin1 (mkMessage 42 None 42 "/vipstatus") w1
    = (Ok tt,
       sent 42 (msg_no_vip_access (PAYMENT_LINK env_admin1))
         (logged (Select TVipUser (Py.str 42)) w1)).
Proof.
  destruct (revoke_removes_access env_admin1 (from_admin1 "/removevip 42") w_active
              "/removevip" [] (mkMessage 42 None 42 "/vipstatus"))
    as (w1 & Hrun & Hnone & _ & Hafter).
  - reflexivity.
  - reflexivity.
  - exists w1. split; [exact Hrun |]. split; [exact Hnone |].
    apply (Hafter env_admin1).
Defined.

(** ** The life of a video *)

Lemma handle_add_video_run
    (env : Env) (message : Message) (w : World)
    (cmd arg1 : string) (rest : list string) :
  is_admin (ADMIN_ID env) message = true ->
  Py.split_max1 (text message) = cmd :: arg1 :: rest ->
  handle_add_video env message w
  = let video_id := Py.take 8 (uuid4 env) in
    match videos w !! video_id with
    | Some _ => (Raised IntegrityError, logged (Insert TVideo video_id) w)
    | None =>
        (Ok tt,
         sent (chat_id message)
           (msg_video_added (deep_link_of (bot_username env) video_id) video_id
              (Py.strip arg1))
           (with_videos (<[video_id := Py.strip arg1]> (videos w))
              (logged (Insert TVideo video_id) w)))
    end.
Proof.
  intros Hadmin Hargs.
  unfold handle_add_video. rewrite Hadmin, Hargs. cbn [negb]. cbv zeta.
  unfold bind, Video_add_commit, bind, log_db.
  cbn [video_id url videos logged].
  destruct (videos w !! Py.take 8 (uuid4 env)); reflexivity.
Qed.

(** X9: an authorized [/addvideo] whose fresh identifier, the first eight
    characters of the UUID, is not in the table stores the address without
    the white space around it and answers with the deep link of the
    identifier.  [/start] with that identifier then finds the video: a user
    with a valid row is sent the stored address, any other user the payment
    text. *)
Theorem add_video_then_start
    (env : Env) (message : Message) (w : World)
    (cmd arg1 : string) (rest : list string) :
  is_admin (ADMIN_ID env) message = true ->
  Py.split_max1 (text message) = cmd :: arg1 :: rest ->
  videos w !! Py.take 8 (uuid4 env) = None ->
  exists w1,
    handle_add_video env message w = (Ok tt, w1) /\
    videos w1 = <[Py.take 8 (uuid4 env) := Py.strip arg1]> (videos w) /\
    vip_users w1 = vip_users w /\
    outbox w1
    = (outbox w ++
       [(chat_id message,
         msg_video_added (deep_link_of (bot_username env) (Py.take 8 (uuid4 env)))
           (Py.take 8 (uuid4 env)) (Py.strip arg1))])%list /\
    forall (env2 : Env) (m2 : Message) cmd2 rest2,
      Py.split (text m2) = cmd2 :: Py.take 8 (uuid4 env) :: rest2 ->
      handle_start env2 m2 w1
      = (Ok tt,
         sent (chat_id m2)
           match vip_users w !! Py.str (from_user_id m2) with
           | Some row =>
               if Py.gt (fst row) (time_time env2)
               then msg_video (Py.strip arg1)
                      (get_vip_time_remaining (time_time env2) (fst row))
               else msg_requires_vip (PAYMENT_LINK env2)
           | None => msg_requires_vip (PAYMENT_LINK env2)
           end
           (logged (Select TVipUser (Py.str (from_user_id m2)))
              (logged (Select TVideo (Py.take 8 (uuid4 env))) w1))).
Proof.
  intros Hadmin Hargs Hfresh.
  rewrite (handle_add_video_run env message w cmd arg1 rest Hadmin Hargs).
  cbv zeta. rewrite Hfresh.
  eexists. split; [reflexivity |].
  split; [reflexivity |]. split; [reflexivity |]. split; [reflexivity |].
  intros env2 m2 cmd2 rest2 Hargs2.
  match goal with
  | |- handle_start _ _ ?w1 = _ =>
      rewrite (handle_start_video_run env2 m2 w1 cmd2 _ rest2 (Py.strip arg1) Hargs2)
  end; [reflexivity | apply lookup_insert_eq].
Qed.

Lemma add_video_then_start_witness :
  exists w1,
    handle_add_video env_admin1 (from_admin1 "/addvideo  https://example.org/b.mp4 ")
      w_active = (Ok tt, w1) /\
    videos w1 = <["0a1b2c3d" := "https://example.org/b.mp4"]> (videos w_active) /\
    handle_start env_admin1 (mkMessage 42 None 42 "/start 0a1b2c3d") w1
    = (Ok tt,
       sent 42 (msg_video "https://example.org/b.mp4" "10 days, 0 hours")
         (logged (Select TVipUser "42") (logged (Select TVideo "0a1b2c3d") w1))).
Proof.
  destruct (add_video_then_start env_admin1
              (from_admin1 "/addvideo  https://example.org/b.mp4 ") w_active
              "/addvideo" "https://example.org/b.mp4 " [])
    as (w1 & Hrun & Hvideos & _ & _ & Hstart).
  - reflexivity.
  - reflexivity.
  - vm_compute. reflexivity.
  - exists w1. split; [exact Hrun |]. split; [exact Hvideos |].
    rewrite (Hstart env_admin1 (mkMessage 42 None 42 "/start 0a1b2c3d") "/start" []
               eq_refl).
    vm_compute. reflexivity.
Defined.

(** X10: an authorized [/addvideo] whose fresh identifier is in the table
    already raises [IntegrityError] out of the handler, which has no [try]
    around the commit: the admin gets no reply and both tables stay as they
    were. *)
Theorem add_video_duplicate_raises
    (env : Env) (message : Message) (w : World)
    (cmd arg1 : string) (rest : list string) (video_url : string) :
  is_admin (ADMIN_ID env) message = true ->
  Py.split_max1 (text message) = cmd :: arg1 :: rest ->
  videos w !! Py.take 8 (uuid4 env) = Some video_url ->
  exists w1,
    handle_add_video env message w = (Raised IntegrityError, w1) /\
    videos w1 = videos w /\
    vip_users w1 = vip_users w /\
    outbox w1 = outbox w.
Proof.
  intros Hadmin Hargs Hdup.
  rewrite (handle_add_video_run env message w cmd arg1 rest Hadmin Hargs).
  cbv zeta. rewrite Hdup.
  eexists. repeat split.
Qed.

Lemma add_video_duplicate_raises_witness :
  exists w1,
    handle_add_video
      (mkEnv (AdminInt 1) "" 1000 "deadbeef-0000-4000-8000-000000000000" "vipbot"
             (fun _ => "") (fun _ => None))
      (from_admin1 "/addvideo https://example.org/c.mp4") w_expired
    = (Raised IntegrityError, w1) /\
    videos w1 = videos w_expired /\
    vip_users w1 = vip_users w_expired /\
    outbox w1 = outbox w_expired.
Proof.
  apply (add_video_duplicate_raises
           (mkEnv (AdminInt 1) "" 1000 "deadbeef-0000-4000-8000-000000000000" "vipbot"
                  (fun _ => "") (fun _ => None))
           (from_admin1 "/addvideo https://example.org/c.mp4") w_expired
           "/addvideo" "https://example.org/c.mp4" [] "https://example.org/v.mp4").
  - reflexivity.
  - reflexivity.
  - vm_compute. reflexivity.
Defined.

(** X11: an authorized [/addvideo] with a fresh identifier followed by an
    authorized [/delvideo] of that identifier is answered with the success
    text and leaves the table of videos as it was before the two; the second
    [/delvideo] of the identifier answers that it was not found. *)
Theorem add_then_delete_video
    (env : Env) (message : Message) (w : World)
    (cmd arg1 : string) (rest : list string)
    (env2 : Env) (m2 : Message) (cmd2 : string) (rest2 : list string) :
  is_admin (ADMIN_ID env) message = true ->
  Py.split_max1 (text message) = cmd :: arg1 :: rest ->
  videos w !! Py.take 8 (uuid4 env) = None ->
  is_admin (ADMIN_ID env2) m2 = true ->
  Py.split (text m2) = cmd2 :: Py.take 8 (uuid4 env) :: rest2 ->
  exists w1 w2 w3,
    handle_add_video env message w = (Ok tt, w1) /\
    handle_del_video env2 m2 w1 = (Ok tt, w2) /\
    handle_del_video env2 m2 w2 = (Ok tt, w3) /\
    videos w2 = videos w /\
    videos w3 = videos w /\
    vip_users w3 = vip_users w /\
    outbox w3
    = (outbox w1 ++
       [(chat_id m2, msg_video_deleted (Py.take 8 (uuid4 env)));
        (chat_id m2, msg_video_not_found (Py.take 8 (uuid4 env)))])%list.
Proof.
  intros Hadmin Hargs Hfresh Hadmin2 Hargs2.
  rewrite (handle_add_video_run env message w cmd arg1 rest Hadmin Hargs).
  cbv zeta. rewrite Hfresh.
  eexists _, _, _. split; [reflexivity |].
  rewrite (handle_del_video_authorized env2 m2 _ cmd2 _ rest2 Hadmin2 Hargs2).
  rewrite del_video_store_run. cbn [videos with_videos logged sent].
  rewrite lookup_insert_eq.
  split; [reflexivity |].
  rewrite (handle_del_video_authorized env2 m2 _ cmd2 _ rest2 Hadmin2 Hargs2).
  rewrite del_video_store_run. cbn [videos with_videos logged sent].
  rewrite (delete_insert_id _ _ _ Hfresh), Hfresh.
  split; [reflexivity |].
  cbn [videos vip_users outbox with_videos logged sent].
  rewrite <- !app_assoc.
  repeat split.
Qed.

Lemma add_then_delete_video_witness :
  exists w1 w2 w3,
    handle_add_video env_admin1 (from_admin1 "/addvideo https://example.org/b.mp4")
      w_expired = (Ok tt, w1) /\
    handle_del_video env_admin1 (from_admin1 "/delvideo 0a1b2c3d") w1 = (Ok tt, w2) /\
    handle_del_video env_admin1 (from_admin1 "/delvideo 0a1b2c3d") w2 = (Ok tt, w3) /\
    videos w2 = videos w_expired /\
    videos w3 = videos w_expired.
Proof.
  destruct (add_then_delete_video env_admin1
              (from_admin1 "/addvideo https://example.org/b.mp4") w_expired
              "/addvideo" "https://example.org/b.mp4" []
              env_admin1 (from_admin1 "/delvideo 0a1b2c3d") "/delvideo" [])
    as (w1 & w2 & w3 & H1 & H2 & H3 & H4 & H5 & _).
  - reflexivity.
  - reflexivity.
  - vm_compute. reflexivity.
  - reflexivity.
  - reflexivity.
  - exists w1, w2, w3. auto.
Defined.

(** ** What a grant touches *)

Lemma set_vip_store_frame
    (env : Env) (target : string) (expiry' : Q) (package' : string) (w : World) :
  exists r w1,
    set_vip_store env target expiry' package' w = (r, w1) /\
    videos w1 = videos w /\
    outbox w1 = outbox w /\
    forall k, k <> target -> vip_users w1 !! k = vip_users w !! k.
Proof.
  destruct (vip_users w !! target) as [[e p] |] eqn:Hrow.
  - destruct (Qlt_le_dec (time_time env) e) as [Hact | Hexp].
    + rewrite (set_vip_store_active env target expiry' package' w e p Hrow Hact).
      eexists _, _. split; [reflexivity |]. repeat split.
      intros k Hk. cbn [vip_users with_vip_users]. now rewrite lookup_insert_ne.
    + rewrite (set_vip_store_expired env target expiry' package' w e p Hrow Hexp).
      eexists _, _. split; [reflexivity |]. repeat split.
  - rewrite (set_vip_store_absent env target expiry' package' w Hrow).
    eexists _, _. split; [reflexivity |]. repeat split.
    intros k Hk. cbn [vip_users with_vip_users]. now rewrite lookup_insert_ne.
Qed.

(** X12: [/setvip] returns normally on every message and every state of
    the tables, whatever the grant or the message to the user raise.  It
    answers the sender first, leaves the table of videos as it was, and
    leaves the row of every user but the one named by the first argument as
    it was. *)
Theorem handle_set_vip_frame (env : Env) (message : Message) (w : World) :
  exists w' reply more,
    handle_set_vip env message w = (Ok tt, w') /\
    videos w' = videos w /\
    outbox w' = (outbox w ++ (chat_id message, reply) :: more)%list /\
    forall k,
      (forall cmd arg2 rest, Py.split (text message) <> cmd :: k :: arg2 :: rest) ->
      vip_users w' !! k = vip_users w !! k.
Proof.
  destruct (is_admin (ADMIN_ID env) message) eqn:Hadmin.
  - destruct (Py.split (text message)) as [| cmd [| target [| arg2 rest]]] eqn:Hargs;
      try solve [unfold handle_set_vip; rewrite Hadmin, Hargs;
                 eexists _, _, []; repeat split].
    destruct (dict_get VIP_PACKAGES (Py.lower arg2)) as [days |] eqn:Hpkg.
    + rewrite (handle_set_vip_run env message w cmd target arg2 rest days
                 Hadmin Hargs Hpkg).
      destruct (set_vip_store_frame env target (requested_expiry env days)
                  (Py.lower arg2) w) as (r & w1 & Hstore & Hvid & Hout & Hother).
      rewrite Hstore.
      assert (Hk : forall k,
                 (forall cmd' arg2' rest', cmd :: target :: arg2 :: rest
                                           <> cmd' :: k :: arg2' :: rest') ->
                 vip_users w1 !! k = vip_users w !! k).
      { intros k Hne. apply Hother. intros ->. now apply (Hne cmd arg2 rest). }
      destruct r as [[] | e].
      * destruct (notify_chat env target) as [chat |].
        -- eexists _, _, [_]. split; [reflexivity |].
           split; [exact Hvid |]. split; [| exact Hk].
           cbn [outbox sent]. rewrite Hout, <- app_assoc. reflexivity.
        -- eexists _, _, [_]. split; [reflexivity |].
           split; [exact Hvid |]. split; [| exact Hk].
           cbn [outbox sent]. rewrite Hout, <- app_assoc. reflexivity.
      * eexists _, _, []. split; [reflexivity |].
        split; [exact Hvid |]. split; [| exact Hk].
        cbn [outbox sent]. rewrite Hout. reflexivity.
    + unfold handle_set_vip. rewrite Hadmin, Hargs.
      change (negb true) with false. cbv beta iota zeta. rewrite Hpkg.
      eexists _, _, []. repeat split.
  - unfold handle_set_vip. rewrite Hadmin.
    eexists _, _, []. repeat split.
Qed.

(** X13: an authorized [/setvip] for a user whose row has expired is
    answered with the error text, and the expired row stays as it was,
    whatever the package: the grant adds a second object with the primary
    key of the row, and the commit raises. *)
Theorem regrant_expired_refused
    (env : Env) (message : Message) (w : World)
    (cmd target arg2 : string) (rest : list string) (days : Z)
    (old_expiry : Q) (old_package : string) :
  is_admin (ADMIN_ID env) message = true ->
  Py.split (text message) = cmd :: target :: arg2 :: rest ->
  dict_get VIP_PACKAGES (Py.lower arg2) = Some days ->
  vip_users w !! target = Some (old_expiry, old_package) ->
  (old_expiry <= time_time env)%Q ->
  exists w',
    handle_set_vip env message w = (Ok tt, w') /\
    outbox w' = (outbox w ++ [(chat_id message, msg_setvip_error)])%list /\
    vip_users w' = vip_users w /\
    videos w' = videos w.
Proof.
  intros Hadmin Hargs Hpkg Hrow Hexpired.
  rewrite (handle_set_vip_expired env message w cmd target arg2 rest days
             old_expiry old_package Hadmin Hargs Hpkg Hrow Hexpired).
  eexists. repeat split.
Qed.

Lemma regrant_expired_refused_witness :
  exists w',
    handle_set_vip env_admin1 (from_admin1 "/setvip 42 30days") w_expired = (Ok tt, w') /\
    outbox w' = (outbox w_expired ++ [(1%Z, msg_setvip_error)])%list /\
    vip_users w' = vip_users w_expired /\
    videos w' = videos w_expired.
Proof.
  apply (regrant_expired_refused env_admin1 (from_admin1 "/setvip 42 30days")
           w_expired "/setvip" "42" "30days" [] 30%Z 500%Q "1day").
  - reflexivity.
  - reflexivity.
  - reflexivity.
  - vm_compute. reflexivity.
  - vm_compute. discriminate.
Defined.

(** X14: an authorized [/removevip] followed by an authorized [/setvip]
    for the same user stores exactly the requested expiry, the time of the
    grant plus the days of the package, and the package, whatever row the
    user had before: valid, expired or none. *)
Theorem revoke_then_grant
    (env : Env) (m1 : Message) (w : World)
    (cmd1 target : string) (rest1 : list string)
    (env2 : Env) (m2 : Message) (cmd2 arg2 : string) (rest2 : list string) (days : Z) :
  is_admin (ADMIN_ID env) m1 = true ->
  Py.split (text m1) = cmd1 :: target :: rest1 ->
  is_admin (ADMIN_ID env2) m2 = true ->
  Py.split (text m2) = cmd2 :: target :: arg2 :: rest2 ->
  dict_get VIP_PACKAGES (Py.lower arg2) = Some days ->
  exists w1 w2,
    handle_remove_vip env m1 w = (Ok tt, w1) /\
    handle_set_vip env2 m2 w1 = (Ok tt, w2) /\
    vip_users w2 = <[target := (requested_expiry env2 days, Py.lower arg2)]> (vip_users w).
Proof.
  intros Hadmin1 Hargs1 Hadmin2 Hargs2 Hpkg.
  rewrite (handle_remove_vip_authorized env m1 w cmd1 target rest1 Hadmin1 Hargs1).
  rewrite remove_vip_store_run.
  assert (Hgoal : forall w1 us,
             vip_users w1 = us -> us !! target = None ->
             <[target := (requested_expiry env2 days, Py.lower arg2)]> us
             = <[target := (requested_expiry env2 days, Py.lower arg2)]> (vip_users w) ->
             exists w2,
               handle_set_vip env2 m2 w1 = (Ok tt, w2) /\
               vip_users w2
               = <[target := (requested_expiry env2 days, Py.lower arg2)]> (vip_users w)).
  { intros w1 us Hus Hnone Hins. subst us.
    destruct (handle_set_vip_absent env2 m2 w1 cmd2 target arg2 rest2 days
                Hadmin2 Hargs2 Hpkg Hnone) as (w2 & Hrun & Hw2).
    exists w2. split; [exact Hrun |]. now rewrite Hw2. }
  destruct (vip_users w !! target) as [row |] eqn:Hrow.
  - cbn zeta. destruct (notify_chat env target) as [chat |].
    + destruct (Hgoal (sent chat msg_vip_revoked
                         (sent (chat_id m1) (msg_vip_removed target)
                            (with_vip_users (delete target (vip_users w))
                               (logged (Delete TVipUser target)
                                  (logged (Select TVipUser target) w)))))
                  (delete target (vip_users w)) eq_refl
                  (lookup_delete_eq _ _) (insert_delete_eq _ _ _))
        as (w2 & Hrun & Hw2).
      eexists _, w2. split; [reflexivity |]. split; [exact Hrun | exact Hw2].
    + destruct (Hgoal (sent (chat_id m1) (msg_vip_removed target)
                         (with_vip_users (delete target (vip_users w))
                            (logged (Delete TVipUser target)
                               (logged (Select TVipUser target) w))))
                  (delete target (vip_users w)) eq_refl
                  (lookup_delete_eq _ _) (insert_delete_eq _ _ _))
        as (w2 & Hrun & Hw2).
      eexists _, w2. split; [reflexivity |]. split; [exact Hrun | exact Hw2].
  - destruct (Hgoal (sent (chat_id m1) (msg_no_vip_status target)
                       (logged (Select TVipUser target) w))
                (vip_users w) eq_refl Hrow eq_refl)
      as (w2 & Hrun & Hw2).
    eexists _, w2. split; [reflexivity |]. split; [exact Hrun | exact Hw2].
Qed.

Lemma revoke_then_grant_witness :
  exists w1 w2,
    handle_remove_vip env_admin1 (from_admin1 "/removevip 42") w_expired = (Ok tt, w1) /\
    handle_set_vip env_admin1 (from_admin1 "/setvip 42 7days") w1 = (Ok tt, w2) /\
    vip_users w2 !! "42" = Some (605800%Q, "7days").
Proof.
  destruct (revoke_then_grant env_admin1 (from_admin1 "/removevip 42") w_expired
              "/removevip" "42" []
              env_admin1 (from_admin1 "/setvip 42 7days") "/setvip" "7days" [] 7%Z)
    as (w1 & w2 & H1 & H2 & H3).
  - reflexivity.
  - reflexivity.
  - reflexivity.
  - reflexivity.
  - reflexivity.
  - exists w1, w2. split; [exact H1 |]. split; [exact H2 |].
    rewrite H3. vm_compute. reflexivity.
Defined.

(** ** Messages to users that cannot be delivered *)

(** X15: whether the message to the user named in a mutating command can
    be delivered changes nothing of what the command does to the tables:
    with any other outcome of these messages the handler ends the same way,
    with the same two tables and the same statements issued. *)
Theorem notification_outcome_keeps_tables
    (env : Env) (f : string -> option Z) (c : MutatingCommand)
    (message : Message) (w : World) :
  fst (handle (with_notify_chat env f) c message w) = fst (handle env c message w) /\
  videos (snd (handle (with_notify_chat env f) c message w))
  = videos (snd (handle env c message w)) /\
  vip_users (snd (handle (with_notify_chat env f) c message w))
  = vip_users (snd (handle env c message w)) /\
  db_log (snd (handle (with_notify_chat env f) c message w))
  = db_log (snd (handle env c message w)).
Proof.
  destruct c; unfold handle.
  - (* /setvip *)
    destruct (is_admin (ADMIN_ID env) message) eqn:Hadmin.
    + assert (Hadmin' : is_admin (ADMIN_ID (with_notify_chat env f)) message = true)
        by exact Hadmin.
      destruct (Py.split (text message)) as [| cmd [| target [| arg2 rest]]] eqn:Hargs;
        try solve [unfold handle_set_vip; rewrite Hadmin, Hadmin', Hargs;
                   repeat split].
      destruct (dict_get VIP_PACKAGES (Py.lower arg2)) as [days |] eqn:Hpkg.
      * rewrite (handle_set_vip_run env message w cmd target arg2 rest days
                   Hadmin Hargs Hpkg).
        rewrite (handle_set_vip_run (with_notify_chat env f) message w cmd target
                   arg2 rest days Hadmin' Hargs Hpkg).
        change (set_vip_store (with_notify_chat env f) target
                  (requested_expiry (with_notify_chat env f) days) (Py.lower arg2) w)
          with (set_vip_store env target (requested_expiry env days) (Py.lower arg2) w).
        destruct (set_vip_store env target (requested_expiry env days)
                    (Py.lower arg2) w) as [[[] | e] w1].
        -- cbn [notify_chat with_notify_chat].
           destruct (notify_chat env target), (f target); repeat split.
        -- repeat split.
      * unfold handle_set_vip. rewrite Hadmin, Hadmin', Hargs.
        change (negb true) with false. cbv beta iota zeta. rewrite Hpkg.
        repeat split.
    + assert (Hadmin' : is_admin (ADMIN_ID (with_notify_chat env f)) message = false)
        by exact Hadmin.
      unfold handle_set_vip. rewrite Hadmin, Hadmin'. repeat split.
  - (* /removevip *)
    destruct (is_admin (ADMIN_ID env) message) eqn:Hadmin.
    + assert (Hadmin' : is_admin (ADMIN_ID (with_notify_chat env f)) message = true)
        by exact Hadmin.
      destruct (Py.split (text message)) as [| cmd [| target rest]] eqn:Hargs;
        try solve [unfold handle_remove_vip; rewrite Hadmin, Hadmin', Hargs;
                   repeat split].
      rewrite (handle_remove_vip_authorized env message w cmd target rest
                 Hadmin Hargs).
      rewrite (handle_remove_vip_authorized (with_notify_chat env f) message w cmd
                 target rest Hadmin' Hargs).
      rewrite !remove_vip_store_run.
      destruct (vip_users w !! target); [| repeat split].
      cbn [notify_chat with_notify_chat]. cbv zeta.
      destruct (notify_chat env target), (f target); repeat split.
    + assert (Hadmin' : is_admin (ADMIN_ID (with_notify_chat env f)) message = false)
        by exact Hadmin.
      unfold handle_remove_vip. rewrite Hadmin, Hadmin'. repeat split.
  - (* /addvideo *)
    change (handle_add_video (with_notify_chat env f) message w)
      with (handle_add_video env message w).
    repeat split.
  - (* /delvideo *)
    change (handle_del_video (with_notify_chat env f) message w)
      with (handle_del_video env message w).
    repeat split.
Qed.

(** ** The argument of a deep link *)

Lemma split_unfold_nonspace (c : ascii) (s : string) :
  Py.isspace c = false ->
  Py.split (String c s)
  = match s with
    | EmptyString => [String c EmptyString]
    | String c' _ =>
        if Py.isspace c' then String c EmptyString :: Py.split s
        else
          match Py.split s with
          | w :: ws => String c w :: ws
          | [] => [String c EmptyString]
          end
    end.
Proof.
  intros H. cbn [Py.split]. rewrite H. destruct s; reflexivity.
Qed.

Lemma split_unfold_space (c : ascii) (s : string) :
  Py.isspace c = true -> Py.split (String c s) = Py.split s.
Proof.
  intros H. cbn [Py.split]. now rewrite H.
Qed.

Lemma split_word (w : string) : is_word w = true -> Py.split w = [w].
Proof.
  induction w as [| c w IH]; [discriminate |].
  cbn [is_word no_space]. intros H.
  apply andb_true_iff in H as [Hc Hw]. apply negb_true_iff in Hc.
  rewrite (split_unfold_nonspace c w Hc).
  destruct w as [| c' w']; [reflexivity |].
  assert (Hw' : is_word (String c' w') = true) by exact Hw.
  cbn [no_space] in Hw. apply andb_true_iff in Hw as [Hc' _].
  apply negb_true_iff in Hc'. rewrite Hc', (IH Hw'). reflexivity.
Qed.

Lemma split_word_then (w s : string) (sp : ascii) :
  is_word w = true -> Py.isspace sp = true ->
  Py.split (w +:+ String sp s) = w :: Py.split s.
Proof.
  intros Hword Hsp.
  induction w as [| c w IH]; [discriminate |].
  cbn [is_word no_space] in Hword.
  apply andb_true_iff in Hword as [Hc Hw]. apply negb_true_iff in Hc.
  destruct w as [| c' w'].
  - change (String c "" +:+ String sp s) with (String c (String sp s)).
    rewrite (split_unfold_nonspace c _ Hc). cbv beta iota.
    rewrite Hsp, (split_unfold_space sp s Hsp). reflexivity.
  - assert (Hw' : is_word (String c' w') = true) by exact Hw.
    cbn [no_space] in Hw. apply andb_true_iff in Hw as [Hc' _].
    apply negb_true_iff in Hc'.
    change (String c (String c' w') +:+ String sp s)
      with (String c (String c' (w' +:+ String sp s))).
    rewrite (split_unfold_nonspace c _ Hc). cbv beta iota.
    change (String c' (w' +:+ String sp s)) with (String c' w' +:+ String sp s).
    rewrite Hc', (IH Hw'). reflexivity.
Qed.

(** X16: the text of a deep link, [/start] and one blank before an
    identifier that is not empty and holds no white space, makes
    [handle_start] look up exactly that identifier, whatever its
    characters: an identifier that is not stored is answered with the text
    of the invalid link, a stored one with the address or the payment
    text. *)
Theorem handle_start_deep_link
    (env : Env) (message : Message) (w : World) (id : string) :
  is_word id = true ->
  text message = "/start " +:+ id ->
  Py.split (text message) = ["/start"; id] /\
  exists reply,
    handle_start env message w
    = (Ok tt,
       sent (chat_id message) reply
         match videos w !! id with
         | Some _ =>
             logged (Select TVipUser (Py.str (from_user_id message)))
               (logged (Select TVideo id) w)
         | None => logged (Select TVideo id) w
         end) /\
    (videos w !! id = None -> reply = msg_invalid_link) /\
    (forall video_url,
        videos w !! id = Some video_url ->
        reply = msg_requires_vip (PAYMENT_LINK env) \/
        exists time_remaining, reply = msg_video video_url time_remaining).
Proof.
  intros Hword Htext.
  assert (Hargs : Py.split (text message) = ["/start"; id]).
  { rewrite Htext.
    change ("/start " +:+ id) with ("/start" +:+ String " " id).
    rewrite (split_word_then "/start" id " " eq_refl eq_refl).
    now rewrite (split_word id Hword). }
  split; [exact Hargs |].
  destruct (videos w !! id) as [video_url |] eqn:Hvideo.
  - rewrite (handle_start_video_run env message w "/start" id [] video_url
               Hargs Hvideo).
    eexists. split; [reflexivity |]. split; [discriminate |].
    intros video_url' [= <-].
    destruct (vip_users w !! Py.str (from_user_id message)) as [row |]; [| now left].
    destruct (Py.gt (fst row) (time_time env)); [right; eauto | now left].
  - exists msg_invalid_link. split.
    + unfold handle_start. rewrite Hargs. unfold bind.
      rewrite Video_query_get_run, Hvideo. reflexivity.
    + split; [reflexivity | discriminate].
Qed.

Lemma handle_start_deep_link_witness :
  Py.split "/start ../;rm%20-rf" = ["/start"; "../;rm%20-rf"] /\
  handle_start env_admin1 (mkMessage 5 None 5 "/start ../;rm%20-rf") w_expired
  = (Ok tt, sent 5 msg_invalid_link (logged (Select TVideo "../;rm%20-rf") w_expired)).
Proof.
  destruct (handle_start_deep_link env_admin1
              (mkMessage 5 None 5 "/start ../;rm%20-rf") w_expired "../;rm%20-rf")
    as (Hargs & reply & Hrun & Hnone & _).
  - reflexivity.
  - reflexivity.
  - split; [exact Hargs |].
    rewrite Hrun, Hnone; vm_compute; reflexivity.
Defined.

(** ** Status and access agree *)

Lemma msg_vip_status_not_no_access (time_remaining expiry_date payment_link : string) :
  msg_vip_status time_remaining expiry_date <> msg_no_vip_access payment_link.
Proof. intros H. discriminate H. Qed.

(** X17: at one time and on one state of the tables, [/vipstatus] tells a
    user that he has VIP access exactly when [/start] with a stored video
    sends him its address: both ask [is_vip], and neither can show access
    that the other refuses. *)
Theorem status_agrees_with_access
    (env : Env) (m_status m_start : Message) (w : World)
    (cmd video_id : string) (rest : list string) (video_url : string) :
  from_user_id m_status = from_user_id m_start ->
  Py.split (text m_start) = cmd :: video_id :: rest ->
  videos w !! video_id = Some video_url ->
  exists w1 w2 reply_status reply_start,
    handle_vip_status env m_status w = (Ok tt, w1) /\
    outbox w1 = (outbox w ++ [(chat_id m_status, reply_status)])%list /\
    handle_start env m_start w = (Ok tt, w2) /\
    outbox w2 = (outbox w ++ [(chat_id m_start, reply_start)])%list /\
    ((exists time_remaining expiry_date,
         reply_status = msg_vip_status time_remaining expiry_date)
     <-> (exists time_remaining, reply_start = msg_video video_url time_remaining)).
Proof.
  intros Hid Hargs Hvideo.
  rewrite handle_vip_status_run.
  rewrite (handle_start_video_run env m_start w cmd video_id rest video_url
             Hargs Hvideo).
  rewrite Hid.
  eexists _, _, _, _. split; [reflexivity |]. split; [reflexivity |].
  split; [reflexivity |]. split; [reflexivity |].
  destruct (vip_users w !! Py.str (from_user_id m_start)) as [row |].
  - destruct (Py.gt (fst row) (time_time env)).
    + split; intros _; eauto.
    + split.
      * intros (tr & d & H). symmetry in H.
        now apply msg_vip_status_not_no_access in H.
      * intros (tr & H). symmetry in H.
        now apply msg_video_not_requires_vip in H.
  - split.
    + intros (tr & d & H). symmetry in H.
      now apply msg_vip_status_not_no_access in H.
    + intros (tr & H). symmetry in H.
      now apply msg_video_not_requires_vip in H.
Qed.

Lemma status_agrees_with_access_witness :
  exists w1 w2 reply_status reply_start,
    handle_vip_status env_admin1 (mkMessage 42 None 42 "/vipstatus") w_expired
    = (Ok tt, w1) /\
    outbox w1 = (outbox w_expired ++ [(42%Z, reply_status)])%list /\
    handle_start env_admin1 (mkMessage 42 None 42 "/start deadbeef") w_expired
    = (Ok tt, w2) /\
    outbox w2 = (outbox w_expired ++ [(42%Z, reply_start)])%list /\
    ((exists time_remaining expiry_date,
         reply_status = msg_vip_status time_remaining expiry_date)
     <-> (exists time_remaining,
             reply_start = msg_video "https://example.org/v.mp4" time_remaining)).
Proof.
  apply (status_agrees_with_access env_admin1
           (mkMessage 42 None 42 "/vipstatus")
           (mkMessage 42 None 42 "/start deadbeef") w_expired
           "/start" "deadbeef" [] "https://example.org/v.mp4").
  - reflexivity.
  - reflexivity.
  - vm_compute. reflexivity.
Defined.

(** ** The packages in the table *)

Lemma dict_get_In (d : list (string * Z)) (k : string) (v : Z) :
  dict_get d k = Some v -> In k (dict_keys d).
Proof.
  induction d as [| [k' v'] d IH]; [discriminate |].
  cbn [dict_get dict_keys map fst]. destruct (String.eqb k k') eqn:E.
  - apply String.eqb_eq in E. intros _. left. now symmetry.
  - intros H. right. exact (IH H).
Qed.

Lemma packages_known_insert
    (w w' : World) (k : string) (e : Q) (p : string) :
  packages_known w -> vip_users w' = <[k := (e, p)]> (vip_users w) ->
  In p (dict_keys VIP_PACKAGES) ->
  packages_known w'.
Proof.
  intros Hw Hw' Hp k' row Hrow. rewrite Hw' in Hrow.
  apply lookup_insert_Some in Hrow as [[_ <-] | [_ Hrow]]; [exact Hp |].
  exact (Hw k' row Hrow).
Qed.

Lemma packages_known_same (w w' : World) :
  packages_known w -> vip_users w' = vip_users w -> packages_known w'.
Proof.
  intros Hw Hw' k row Hrow. rewrite Hw' in Hrow. exact (Hw k row Hrow).
Qed.

Lemma set_vip_store_packages
    (env : Env) (target : string) (expiry' : Q) (package' : string) (w : World) :
  packages_known w -> In package' (dict_keys VIP_PACKAGES) ->
  packages_known (snd (set_vip_store env target expiry' package' w)).
Proof.
  intros Hw Hp.
  destruct (vip_users w !! target) as [[e p] |] eqn:Hrow.
  - destruct (Qlt_le_dec (time_time env) e) as [Hact | Hexp].
    + rewrite (set_vip_store_active env target expiry' package' w e p Hrow Hact).
      eapply (packages_known_insert w); [exact Hw | reflexivity | exact Hp].
    + rewrite (set_vip_store_expired env target expiry' package' w e p Hrow Hexp).
      apply (packages_known_same w); [exact Hw | reflexivity].
  - rewrite (set_vip_store_absent env target expiry' package' w Hrow).
    eapply (packages_known_insert w); [exact Hw | reflexivity | exact Hp].
Qed.

(** X18: no mutating command brings an unknown package into the table of
    entitlements: when every stored package is one of the four labels of
    [VIP_PACKAGES] before [/setvip], [/removevip], [/addvideo] or
    [/delvideo], every stored package is one afterwards, whoever sends the
    command and however its package argument is written. *)
Theorem packages_known_preserved
    (env : Env) (c : MutatingCommand) (message : Message) (w : World) :
  packages_known w ->
  packages_known (snd (handle env c message w)).
Proof.
  intros Hw. destruct c; unfold handle.
  - destruct (handle_set_vip_vip_users env message w) as (w' & Hrun & Hcases).
    rewrite Hrun. cbn [snd].
    destruct Hcases
      as [Hsame | (cmd & target & arg2 & rest & days & r & w1
                   & _ & _ & Hpkg & Hstore & Hsame)].
    + exact (packages_known_same w w' Hw Hsame).
    + apply (packages_known_same w1 w'); [| exact Hsame].
      replace w1 with (snd (set_vip_store env target (requested_expiry env days)
                              (Py.lower arg2) w)) by now rewrite Hstore.
      apply set_vip_store_packages; [exact Hw |].
      exact (dict_get_In _ _ _ Hpkg).
  - unfold handle_remove_vip.
    destruct (is_admin (ADMIN_ID env) message); cbn [negb];
      [| apply (packages_known_same w); [exact Hw | reflexivity]].
    destruct (Py.split (text message)) as [| cmd [| target rest]];
      try (apply (packages_known_same w); [exact Hw | reflexivity]).
    unfold try_except. rewrite remove_vip_store_run.
    destruct (vip_users w !! target) as [row |] eqn:Hrow;
      [| apply (packages_known_same w); [exact Hw | reflexivity]].
    assert (Hdel : forall w',
               vip_users w' = delete target (vip_users w) -> packages_known w').
    { intros w' Hw' k row' Hrow'. rewrite Hw' in Hrow'.
      apply lookup_delete_Some in Hrow' as [_ Hrow']. exact (Hw k row' Hrow'). }
    cbv zeta. destruct (notify_chat env target); apply Hdel; reflexivity.
  - unfold handle_add_video.
    destruct (is_admin (ADMIN_ID env) message); cbn [negb];
      [| apply (packages_known_same w); [exact Hw | reflexivity]].
    destruct (Py.split_max1 (text message)) as [| cmd [| arg1 rest]];
      try (apply (packages_known_same w); [exact Hw | reflexivity]).
    unfold bind, Video_add_commit, bind, log_db. cbn [video_id url videos logged].
    destruct (videos w !! Py.take 8 (uuid4 env));
      apply (packages_known_same w); try exact Hw; reflexivity.
  - unfold handle_del_video.
    destruct (is_admin (ADMIN_ID env) message); cbn [negb];
      [| apply (packages_known_same w); [exact Hw | reflexivity]].
    destruct (Py.split (text message)) as [| cmd [| target rest]];
      try (apply (packages_known_same w); [exact Hw | reflexivity]).
    rewrite del_video_store_run.
    destruct (videos w !! target);
      apply (packages_known_same w); try exact Hw; reflexivity.
Qed.

Lemma packages_known_preserved_witness :
  packages_known (snd (handle env_admin1 SetVip (from_admin1 "/setvip 42 7DAYS") w_active)).
Proof.
  apply (packages_known_preserved env_admin1 SetVip
           (from_admin1 "/setvip 42 7DAYS") w_active).
  intros k row Hrow. unfold w_active in Hrow. cbn [vip_users] in Hrow.
  apply lookup_insert_Some in Hrow as [[_ <-] | [_ Hrow]].
  - vm_compute. auto.
  - rewrite lookup_empty in Hrow. discriminate.
Defined.
